(** * utils.py: logger construction and the two feature plotters

    A shallow embedding of [create_logger], [plot_distributions] and
    [plot_vars_vs_target].

    The Python code is imperative: it builds a matplotlib figure by
    mutating it through handles ([fig], [ax]), it reads the caller's
    DataFrame through the reference [data], and it may raise.  The
    embedding therefore threads an explicit store (the DataFrame the
    argument refers to, pyplot's table of figures, the number of
    [plt.show()] calls) through a state-and-exception monad.

    utils.py is glue over matplotlib, seaborn and the logging module.
    What those libraries accept is not code of utils.py: a call into
    them may raise (a target name that is no column, a grid too large,
    a file that cannot be opened), and the exception leaves utils.py
    unhandled.  The libraries are therefore an interface, [Library] for
    the plotting calls and [Os] for the file system, which says for
    each call whether it raises and what; the embedded code is the same
    for every implementation of the interface, and a statement that a
    call returns carries the hypothesis that the library calls of that
    run are accepted.  The exceptions the code raises by itself are
    those of the Python operations it performs: [ZeroDivisionError]
    from [//], and what [data[var].dtype] raises when the label [var]
    selects no column or more than one. *)

From Stdlib Require Import ZArith QArith List Bool Lia.
From stdpp Require Import base list strings gmap.

Local Open Scope Z_scope.
Local Open Scope string_scope.

(** ** Python results and the store-passing monad *)

Inductive Exn : Type :=
| ZeroDivisionError
| KeyError
| AttributeError
| ValueError
| TypeError
| OverflowError
| FileNotFoundError
| OtherError (class : string).

Inductive Result (A : Type) : Type :=
| Ok (a : A)
| Raise (e : Exn).
Arguments Ok {A} a.
Arguments Raise {A} e.

(** A computation over a store [W]: it ends with a value or a raised
    exception, and in both cases with the store it leaves behind. *)
Definition M (W A : Type) : Type := W -> Result A * W.

Definition ret {W A : Type} (a : A) : M W A := fun w => (Ok a, w).

Definition raise {W A : Type} (e : Exn) : M W A := fun w => (Raise e, w).

Definition bind {W A B : Type} (m : M W A) (k : A -> M W B) : M W B :=
  fun w =>
    match m w with
    | (Ok a, w') => k a w'
    | (Raise e, w') => (Raise e, w')
    end.

Declare Scope py_scope.
Delimit Scope py_scope with py.
Notation "x <- m ;; k" := (bind m (fun x => k))
  (at level 100, m at next level, right associativity) : py_scope.
Notation "m ;;; k" := (bind m (fun _ => k))
  (at level 100, right associativity) : py_scope.
Local Open Scope py_scope.

(** [for i, x in enumerate(xs, start): body(i, x)] *)
Fixpoint for_enumerate {W A : Type} (start : Z) (xs : list A)
    (body : Z -> A -> M W unit) : M W unit :=
  match xs with
  | [] => ret tt
  | x :: xs' => body start x ;;; for_enumerate (start + 1) xs' body
  end.

(** ** pandas: the data model *)

(** A cell of a column.  utils.py never inspects cells; they only travel
    to seaborn inside the column they belong to. *)
Inductive Cell : Type :=
| VInt (z : Z)
| VFloat (q : Q)
| VStr (s : string)
| VMissing.

(** A pandas Series as a DataFrame holds it: its label, the name of its
    dtype (['int64'], ['float64'], ['category'], ['object'], ...) and its
    values. *)
Record Column : Type := mkColumn {
  col_name : string;
  col_dtype : string;
  col_values : list Cell
}.

(** A DataFrame: its columns, in order.  Labels may repeat, as in
    pandas. *)
Abbreviation DataFrame := (list Column).

(** What [data[var]] evaluates to: a Series when the label selects one
    column, a DataFrame when it selects several. *)
Inductive Selection : Type :=
| SeriesSel (c : Column)
| FrameSel (cs : list Column).

(** ** matplotlib and seaborn: figures, axes and what is drawn on them *)

(** One seaborn call, with the arguments utils.py gives it. *)
Inductive Artist : Type :=
| Distplot (a : Selection) (bins : Z) (kde : bool)
| Countplot (a : Selection)
| Scatterplot (x y : string) (data : DataFrame) (alpha : Q)
| Violinplot (x y : string) (data : DataFrame).

(** An Axes created by [fig.add_subplot(nrows, ncols, index)].  A fresh
    Axes has nothing drawn, empty title and labels, and unrotated tick
    labels. *)
Record Axes : Type := mkAxes {
  ax_nrows : Z;
  ax_ncols : Z;
  ax_index : Z;
  ax_artists : list Artist;
  ax_title : string;
  ax_title_weight : string;
  ax_xlabel : string;
  ax_ylabel : string;
  ax_xtick_rotation : Z
}.

Definition new_axes (nrows ncols index : Z) : Axes :=
  mkAxes nrows ncols index [] "" "normal" "" "" 0.

Record Figure : Type := mkFigure {
  fig_size : Z * Z;
  fig_axes : list Axes;
  fig_tight : bool
}.

(** Handles: a figure is named by its position in pyplot's table, an
    Axes by its figure and its position among that figure's axes. *)
Definition FigRef : Type := nat.
Definition AxRef : Type := (nat * nat)%type.

(** ** The store *)

Record World : Type := mkWorld {
  w_frame : DataFrame;        (* the object the argument [data] refers to *)
  w_figures : list Figure;    (* pyplot's figures, oldest first *)
  w_shows : nat               (* how many times plt.show() was called *)
}.

Abbreviation Py := (M World).

(** ** The plotting libraries as an interface

    For each call utils.py makes into matplotlib or seaborn, the
    exception the library raises on it, if it raises.  [figure_error]
    answers for [plt.figure(figsize = size)], [subplot_error] for
    [fig.add_subplot(nrows, ncols, index)], [seaborn_error] for a
    seaborn call drawing on a given Axes, [layout_error] for
    [fig.tight_layout()] on a given figure. *)
Class Library : Type := {
  figure_error : Z * Z -> option Exn;
  subplot_error : Z -> Z -> Z -> option Exn;
  seaborn_error : Axes -> Artist -> option Exn;
  layout_error : Figure -> option Exn
}.

(** ** Python and pandas primitives used by utils.py *)

(** [a // b] on ints. *)
Definition floordiv (a b : Z) : Py Z :=
  if Z.eqb b 0 then raise ZeroDivisionError else ret (a / b).

(** [data.columns]: the labels, in order. *)
Definition columns : Py (list string) :=
  fun w => (Ok (map col_name (w_frame w)), w).

(** [idx[:-1]] *)
Definition but_last {A : Type} (l : list A) : list A :=
  firstn (length l - 1)%nat l.

(** [data[var]] *)
Definition getitem (var : string) : Py Selection :=
  fun w =>
    match filter (fun c => col_name c = var) (w_frame w) with
    | [] => (Raise KeyError, w)
    | [c] => (Ok (SeriesSel c), w)
    | cs => (Ok (FrameSel cs), w)
    end.

(** [sel.dtype], as the tests of utils.py use it.  A Series has a
    dtype.  A DataFrame has no such attribute, unless one of its
    columns is labelled 'dtype': the attribute is then that selection
    of columns, and comparing it with a string, which is all utils.py
    does with it, raises ValueError; the two steps are one here. *)
Definition dtype (sel : Selection) : Py string :=
  match sel with
  | SeriesSel c => ret (col_dtype c)
  | FrameSel cs =>
      if existsb (fun c => String.eqb (col_name c) "dtype") cs
      then raise ValueError
      else raise AttributeError
  end.

(** [d in ['int64', 'float64']]: a dtype equals a string when the string
    is its name. *)
Definition in_int64_float64 (d : string) : bool :=
  String.eqb d "int64" || String.eqb d "float64".

(** [d == 'category'] *)
Definition is_category (d : string) : bool := String.eqb d "category".

(** ** matplotlib and seaborn primitives *)

(** A figure size both sides of which are positive is accepted; for any
    other size the library decides. *)
Definition figure_outcome {L : Library} (size : Z * Z) : option Exn :=
  if ((0 <? fst size)%Z && (0 <? snd size)%Z)%bool then None
  else figure_error size.

(** [plt.figure(figsize = size)] *)
Definition plt_figure {L : Library} (size : Z * Z) : Py FigRef :=
  fun w =>
    match figure_outcome size with
    | Some e => (Raise e, w)
    | None =>
        (Ok (length (w_figures w)),
         mkWorld (w_frame w) (w_figures w ++ [mkFigure size [] false]) (w_shows w))
    end.

Definition on_figure (fig : FigRef) (f : Figure -> Figure) : Py unit :=
  fun w => (Ok tt, mkWorld (w_frame w) (alter f fig (w_figures w)) (w_shows w)).

Definition on_axes (ax : AxRef) (f : Axes -> Axes) : Py unit :=
  on_figure (fst ax)
    (fun fg => mkFigure (fig_size fg) (alter f (snd ax) (fig_axes fg)) (fig_tight fg)).

(** [fig.add_subplot(nrows, ncols, index)] *)
Definition add_subplot {L : Library} (fig : FigRef) (nrows ncols index : Z) : Py AxRef :=
  fun w =>
    match subplot_error nrows ncols index with
    | Some e => (Raise e, w)
    | None =>
        let k := match w_figures w !! fig with
                 | Some fg => length (fig_axes fg)
                 | None => 0%nat
                 end in
        (Ok (fig, k),
         mkWorld (w_frame w)
           (alter (fun fg => mkFigure (fig_size fg)
                               (fig_axes fg ++ [new_axes nrows ncols index])
                               (fig_tight fg)) fig (w_figures w))
           (w_shows w))
    end.

(** The Axes a handle stands for. *)
Definition axes_at (ax : AxRef) (w : World) : option Axes :=
  match w_figures w !! fst ax with
  | Some fg => fig_axes fg !! snd ax
  | None => None
  end.

(** A seaborn call [a] with [ax = ax].  What a call that raises has
    already put on the Axes is not represented: the store is then the
    one before the call. *)
Definition draw {L : Library} (a : Artist) (ax : AxRef) : Py unit :=
  fun w =>
    match match axes_at ax w with
          | Some x => seaborn_error x a
          | None => None
          end with
    | Some e => (Raise e, w)
    | None =>
        on_axes ax (fun x =>
          mkAxes (ax_nrows x) (ax_ncols x) (ax_index x) (ax_artists x ++ [a])
            (ax_title x) (ax_title_weight x) (ax_xlabel x) (ax_ylabel x)
            (ax_xtick_rotation x)) w
    end.

(** [sns.distplot(a, bins = bins, kde = kde, ax = ax)] *)
Definition sns_distplot {L : Library} (a : Selection) (bins : Z) (kde : bool)
    (ax : AxRef) : Py unit :=
  draw (Distplot a bins kde) ax.

(** [sns.countplot(a, ax = ax)] *)
Definition sns_countplot {L : Library} (a : Selection) (ax : AxRef) : Py unit :=
  draw (Countplot a) ax.

(** [sns.scatterplot(x = x, y = y, data = data, alpha = alpha, ax = ax)] *)
Definition sns_scatterplot {L : Library} (x y : string) (alpha : Q) (ax : AxRef)
    : Py unit :=
  fun w => draw (Scatterplot x y (w_frame w) alpha) ax w.

(** [sns.violinplot(x = x, y = y, data = data, ax = ax)] *)
Definition sns_violinplot {L : Library} (x y : string) (ax : AxRef) : Py unit :=
  fun w => draw (Violinplot x y (w_frame w)) ax w.

(** [ax.set_title(s, weight = weight)] *)
Definition set_title (ax : AxRef) (s weight : string) : Py unit :=
  on_axes ax (fun x =>
    mkAxes (ax_nrows x) (ax_ncols x) (ax_index x) (ax_artists x)
      s weight (ax_xlabel x) (ax_ylabel x) (ax_xtick_rotation x)).

(** [ax.set_xlabel(s)] *)
Definition set_xlabel (ax : AxRef) (s : string) : Py unit :=
  on_axes ax (fun x =>
    mkAxes (ax_nrows x) (ax_ncols x) (ax_index x) (ax_artists x)
      (ax_title x) (ax_title_weight x) s (ax_ylabel x) (ax_xtick_rotation x)).

(** [ax.set_ylabel(s)] *)
Definition set_ylabel (ax : AxRef) (s : string) : Py unit :=
  on_axes ax (fun x =>
    mkAxes (ax_nrows x) (ax_ncols x) (ax_index x) (ax_artists x)
      (ax_title x) (ax_title_weight x) (ax_xlabel x) s (ax_xtick_rotation x)).

(** [ax.set_xticklabels(ax.get_xticklabels(), rotation = r)]: the labels
    are set to themselves, turned by [r] degrees. *)
Definition rotate_xticklabels (ax : AxRef) (r : Z) : Py unit :=
  on_axes ax (fun x =>
    mkAxes (ax_nrows x) (ax_ncols x) (ax_index x) (ax_artists x)
      (ax_title x) (ax_title_weight x) (ax_xlabel x) (ax_ylabel x) r).

(** A size both sides of which are positive and at most 20 inches. *)
Definition small_size (size : Z * Z) : bool :=
  ((0 <? fst size)%Z && (fst size <=? 20)%Z
   && (0 <? snd size)%Z && (snd size <=? 20)%Z)%bool.

(** A figure without Axes has nothing to arrange: when it is small, as
    the figures are that utils.py leaves without Axes (20 by 5 and 20
    by 10), it is laid out without error; for any other figure the
    library decides. *)
Definition layout_outcome {L : Library} (fg : Figure) : option Exn :=
  match fig_axes fg with
  | [] => if small_size (fig_size fg) then None else layout_error fg
  | _ :: _ => layout_error fg
  end.

(** [fig.tight_layout()] *)
Definition tight_layout {L : Library} (fig : FigRef) : Py unit :=
  fun w =>
    match match w_figures w !! fig with
          | Some fg => layout_outcome fg
          | None => None
          end with
    | Some e => (Raise e, w)
    | None =>
        on_figure fig (fun fg => mkFigure (fig_size fg) (fig_axes fg) true) w
    end.

(** [plt.show()] *)
Definition plt_show : Py unit :=
  fun w => (Ok tt, mkWorld (w_frame w) (w_figures w) (S (w_shows w))).

(** ** utils.py *)

(** The body of the loop of [plot_distributions]. *)
Definition plot_distributions_body {L : Library} (fig : FigRef) (n_rows n_cols : Z)
    (i : Z) (var : string) : Py unit :=
  ax <- add_subplot fig n_rows n_cols (i + 1) ;;
  s <- getitem var ;;
  d <- dtype s ;;
  if in_int64_float64 d then
    a <- getitem var ;;
    sns_distplot a 20 false ax ;;;
    set_title ax (var ++ " distribution") "bold" ;;;
    set_xlabel ax var ;;;
    set_ylabel ax "Frecuency"
  else
    a <- getitem var ;;
    sns_countplot a ax ;;;
    set_title ax (var ++ " distribution") "bold" ;;;
    set_xlabel ax "" ;;;
    set_ylabel ax "Frecuency" ;;;
    rotate_xticklabels ax 90.

Definition plot_distributions {L : Library} (n_cols : Z) (show : bool) : Py FigRef :=
  cols <- columns ;;
  q <- floordiv (Z.of_nat (length cols)) n_cols ;;
  let n_rows := q + 1 in
  fig <- plt_figure (20, 5 * n_rows) ;;
  cols <- columns ;;
  for_enumerate 0 cols (plot_distributions_body fig n_rows n_cols) ;;;
  tight_layout fig ;;;
  (if show then plt_show else ret tt) ;;;
  ret fig.

(** The body of the loop of [plot_vars_vs_target]. *)
Definition plot_vars_vs_target_body {L : Library} (fig : FigRef) (var_target : string)
    (n_rows n_cols : Z) (i : Z) (var : string) : Py unit :=
  ax <- add_subplot fig n_rows n_cols (i + 1) ;;
  s <- getitem var ;;
  d <- dtype s ;;
  if in_int64_float64 d then
    sns_scatterplot var var_target (3 # 10)%Q ax ;;;
    set_title ax (var_target ++ " vs. " ++ var) "bold" ;;;
    set_xlabel ax var ;;;
    set_ylabel ax var_target
  else
    s <- getitem var ;;
    d <- dtype s ;;
    if is_category d then
      sns_violinplot var var_target ax ;;;
      set_title ax (var_target ++ " vs. " ++ var) "bold" ;;;
      set_xlabel ax "" ;;;
      set_ylabel ax var_target ;;;
      rotate_xticklabels ax 90
    else
      ret tt.

Definition plot_vars_vs_target {L : Library} (var_target : string) (n_cols : Z)
    (show : bool) : Py FigRef :=
  cols <- columns ;;
  q <- floordiv (Z.of_nat (length cols)) n_cols ;;
  let n_rows := q + 1 in
  fig <- plt_figure (20, 5 * n_rows) ;;
  cols <- columns ;;
  for_enumerate 0 (but_last cols) (plot_vars_vs_target_body fig var_target n_rows n_cols) ;;;
  tight_layout fig ;;;
  (if show then plt_show else ret tt) ;;;
  ret fig.

(** A call [f(data, ...)] made while pyplot holds the figures [figs] and
    [plt.show()] has been called [shows] times. *)
Definition call {A : Type} (m : Py A) (data : DataFrame) (figs : list Figure)
    (shows : nat) : Result A * World :=
  m (mkWorld data figs shows).

(** ** The logging module: its store and the primitives utils.py uses

    [logging] keeps one table of loggers per process, keyed by name;
    handlers are objects of their own, held by reference in the loggers
    they were added to.  A handler reference is its position in the
    table of handler objects.  Of a logger the record keeps what
    utils.py sets, its level and its handlers; the place of a logger in
    the hierarchy of names is not represented.  The file system is a
    map from files to contents. *)

Definition NOTSET : Z := 0.
Definition DEBUG : Z := 10.
Definition INFO : Z := 20.
Definition WARNING : Z := 30.
Definition ERROR : Z := 40.
Definition CRITICAL : Z := 50.

Inductive HandlerKind : Type :=
| StreamHandler
| FileHandler (filename mode : string).

Record Handler : Type := mkHandler {
  h_kind : HandlerKind;
  h_level : Z;
  h_formatter : option string
}.

Record Logger : Type := mkLogger {
  lg_level : Z;
  lg_handlers : list nat
}.

Record Logging : Type := mkLogging {
  lw_loggers : gmap string Logger;
  lw_handlers : list Handler;
  lw_files : gmap string string
}.

Abbreviation Lg := (M Logging).

(** The file system as an interface.  [file_of path] names the file a
    path designates, so that two ways of writing a path to one file
    (['logging.log'], ['./logging.log'], a link) have one [file_of];
    [open_error path mode] is the exception [open(path, mode)] raises,
    if it raises (no such directory, no permission). *)
Class Os : Type := {
  file_of : string -> string;
  open_error : string -> string -> option Exn
}.

(** [logging.getLogger(name)]: the logger of that name, created on first
    use with level NOTSET and no handlers. *)
Definition getLogger (name : string) : Lg string :=
  fun w =>
    match lw_loggers w !! name with
    | Some _ => (Ok name, w)
    | None =>
        (Ok name,
         mkLogging (<[name := mkLogger NOTSET []]> (lw_loggers w))
           (lw_handlers w) (lw_files w))
    end.

(** [logger.setLevel(level)] *)
Definition logger_setLevel (logger : string) (level : Z) : Lg unit :=
  fun w =>
    (Ok tt,
     mkLogging
       (alter (fun l => mkLogger level (lg_handlers l)) logger (lw_loggers w))
       (lw_handlers w) (lw_files w)).

(** [logging.Formatter(fmt)] *)
Definition Formatter (fmt : string) : Lg string := ret fmt.

(** [logging.StreamHandler()] *)
Definition new_StreamHandler : Lg nat :=
  fun w =>
    (Ok (length (lw_handlers w)),
     mkLogging (lw_loggers w)
       (lw_handlers w ++ [mkHandler StreamHandler NOTSET None]) (lw_files w)).

(** What a successful [open(filename, mode)] does to the files: mode
    ['w'] creates the file or empties it, any other mode used here
    (['a']) creates it when missing and keeps its contents otherwise. *)
Definition open_file {os : Os} (filename mode : string) (files : gmap string string)
    : gmap string string :=
  if String.eqb mode "w" then <[file_of filename := ""]> files
  else match files !! file_of filename with
       | Some _ => files
       | None => <[file_of filename := ""]> files
       end.

(** [logging.FileHandler(filename, mode = mode)]: the file is opened when
    the handler is constructed, and the constructor raises what [open]
    raises. *)
Definition new_FileHandler {os : Os} (filename mode : string) : Lg nat :=
  fun w =>
    match open_error filename mode with
    | Some e => (Raise e, w)
    | None =>
        (Ok (length (lw_handlers w)),
         mkLogging (lw_loggers w)
           (lw_handlers w ++ [mkHandler (FileHandler filename mode) NOTSET None])
           (open_file filename mode (lw_files w)))
    end.

(** [handler.setLevel(level)] *)
Definition handler_setLevel (h : nat) (level : Z) : Lg unit :=
  fun w =>
    (Ok tt,
     mkLogging (lw_loggers w)
       (alter (fun x => mkHandler (h_kind x) level (h_formatter x)) h (lw_handlers w))
       (lw_files w)).

(** [handler.setFormatter(fmt)] *)
Definition handler_setFormatter (h : nat) (fmt : string) : Lg unit :=
  fun w =>
    (Ok tt,
     mkLogging (lw_loggers w)
       (alter (fun x => mkHandler (h_kind x) (h_level x) (Some fmt)) h (lw_handlers w))
       (lw_files w)).

(** [logger.addHandler(h)]: appended unless that very object is already
    among the logger's handlers. *)
Definition addHandler (logger : string) (h : nat) : Lg unit :=
  fun w =>
    (Ok tt,
     mkLogging
       (alter (fun l =>
                 if bool_decide (h ∈ lg_handlers l) then l
                 else mkLogger (lg_level l) (lg_handlers l ++ [h]))
              logger (lw_loggers w))
       (lw_handlers w) (lw_files w)).

(** A handler passes on a record exactly when the record's level is at
    least the handler's ([Logger.callHandlers]). *)
Definition handler_emits (h : Handler) (levelno : Z) : bool :=
  (h_level h <=? levelno)%Z.

(** ** utils.py: [create_logger] *)

Definition create_logger {os : Os} (__name__ : string) (stream file : bool)
    (file_name : string) : Lg string :=
  logger <- getLogger __name__ ;;
  logger_setLevel logger DEBUG ;;;
  (if stream then
     formatter_stream <- Formatter "%(asctime)s : %(levelname)s %(message)s" ;;
     stream_handler <- new_StreamHandler ;;
     handler_setLevel stream_handler DEBUG ;;;
     handler_setFormatter stream_handler formatter_stream ;;;
     addHandler logger stream_handler
   else ret tt) ;;;
  (if file then
     formatter_file <- Formatter "%(asctime)s %(name)s %(lineno)d:%(levelname)s %(message)s" ;;
     file_handler <- new_FileHandler file_name "w" ;;
     handler_setLevel file_handler INFO ;;;
     handler_setFormatter file_handler formatter_file ;;;
     addHandler logger file_handler
   else ret tt) ;;;
  ret logger.

(** ** Closed forms used in the statements below *)

(** [n_rows] as both plotters compute it from the number of columns. *)
Definition grid_rows (data : DataFrame) (n_cols : Z) : Z :=
  Z.of_nat (length data) / n_cols + 1.

(** The Axes that one turn of the loop of [plot_distributions] leaves
    behind for column [c] met at position [i]. *)
Definition distribution_panel (n_rows n_cols : Z) (i : Z) (c : Column) : Axes :=
  if in_int64_float64 (col_dtype c) then
    mkAxes n_rows n_cols (i + 1) [Distplot (SeriesSel c) 20 false]
      (col_name c ++ " distribution") "bold" (col_name c) "Frecuency" 0
  else
    mkAxes n_rows n_cols (i + 1) [Countplot (SeriesSel c)]
      (col_name c ++ " distribution") "bold" "" "Frecuency" 90.

(** The same for one turn of the loop of [plot_vars_vs_target]. *)
Definition relation_panel (data : DataFrame) (var_target : string)
    (n_rows n_cols : Z) (i : Z) (c : Column) : Axes :=
  if in_int64_float64 (col_dtype c) then
    mkAxes n_rows n_cols (i + 1)
      [Scatterplot (col_name c) var_target data (3 # 10)%Q]
      (var_target ++ " vs. " ++ col_name c) "bold" (col_name c) var_target 0
  else if is_category (col_dtype c) then
    mkAxes n_rows n_cols (i + 1)
      [Violinplot (col_name c) var_target data]
      (var_target ++ " vs. " ++ col_name c) "bold" "" var_target 90
  else
    new_axes n_rows n_cols (i + 1).

(** [[f i x0; f (i+1) x1; ...]] *)
Fixpoint enum_map {A B : Type} (f : Z -> A -> B) (i : Z) (xs : list A) : list B :=
  match xs with
  | [] => []
  | x :: xs' => f i x :: enum_map f (i + 1) xs'
  end.

(** The seaborn call [plot_distributions] makes for column [c]. *)
Definition distribution_artist (c : Column) : Artist :=
  if in_int64_float64 (col_dtype c) then Distplot (SeriesSel c) 20 false
  else Countplot (SeriesSel c).

(** The seaborn call [plot_vars_vs_target] makes for column [c], if it
    makes one. *)
Definition relation_artist (data : DataFrame) (var_target : string) (c : Column)
    : option Artist :=
  if in_int64_float64 (col_dtype c) then
    Some (Scatterplot (col_name c) var_target data (3 # 10)%Q)
  else if is_category (col_dtype c) then
    Some (Violinplot (col_name c) var_target data)
  else None.

(** What the library raises, if it raises, at one of the two calls a
    turn of the loop of [plot_distributions] makes into it for column
    [c] met at position [i]: [add_subplot], then the seaborn call on
    the fresh Axes. *)
Definition distribution_turn_error {L : Library} (n_rows n_cols : Z) (i : Z)
    (c : Column) : option Exn :=
  match subplot_error n_rows n_cols (i + 1) with
  | Some e => Some e
  | None => seaborn_error (new_axes n_rows n_cols (i + 1)) (distribution_artist c)
  end.

(** The same for a turn of the loop of [plot_vars_vs_target]. *)
Definition relation_turn_error {L : Library} (data : DataFrame) (var_target : string)
    (n_rows n_cols : Z) (i : Z) (c : Column) : option Exn :=
  match subplot_error n_rows n_cols (i + 1) with
  | Some e => Some e
  | None =>
      match relation_artist data var_target c with
      | Some a => seaborn_error (new_axes n_rows n_cols (i + 1)) a
      | None => None
      end
  end.

(** The library accepts every call that [plot_distributions(data,
    n_cols)] makes into it: those of each turn of the loop, and
    [tight_layout] on the figure the loop has built. *)
Definition distributions_accepted {L : Library} (data : DataFrame) (n_cols : Z) : Prop :=
  (forall (k : nat) (c : Column),
     data !! k = Some c ->
     distribution_turn_error (grid_rows data n_cols) n_cols (Z.of_nat k) c = None)
  /\ layout_outcome
       (mkFigure (20, 5 * grid_rows data n_cols)
          (enum_map (distribution_panel (grid_rows data n_cols) n_cols) 0 data)
          false) = None.

(** The same for [plot_vars_vs_target(data, var_target, n_cols)]. *)
Definition relations_accepted {L : Library} (data : DataFrame) (var_target : string)
    (n_cols : Z) : Prop :=
  (forall (k : nat) (c : Column),
     but_last data !! k = Some c ->
     relation_turn_error data var_target (grid_rows data n_cols) n_cols
       (Z.of_nat k) c = None)
  /\ layout_outcome
       (mkFigure (20, 5 * grid_rows data n_cols)
          (enum_map (relation_panel data var_target (grid_rows data n_cols) n_cols)
             0 (but_last data))
          false) = None.

(** What [data[var].dtype in [...]] raises when [var] names several
    columns. *)
Definition ambiguous_label_error (var : string) : Exn :=
  if String.eqb var "dtype" then ValueError else AttributeError.

(** A figure with one more Axes. *)
Definition add_axes (fg : Figure) (a : Axes) : Figure :=
  mkFigure (fig_size fg) (fig_axes fg ++ [a])%list (fig_tight fg).

(** [axes] is what a loop that would build [panels], starting at
    position [i], leaves in the store when it may have been cut short:
    the first [m] of the panels, followed, when the turn was interrupted
    after its [add_subplot], by the Axes of that turn as created. *)
Definition cut_short (n_rows n_cols : Z) (i : Z) (panels : list Axes)
    (axes : list Axes) : Prop :=
  exists m : nat,
    (m <= length panels)%nat
    /\ (axes = take m panels
        \/ (m < length panels)%nat
           /\ axes = (take m panels
                      ++ [new_axes n_rows n_cols (i + Z.of_nat m + 1)])%list).

(** The store leaves a computation with the same [f]-component it
    entered it with, whether it returns or raises. *)
Definition keeps {X A : Type} (f : World -> X) (m : Py A) : Prop :=
  forall w, f (snd (m w)) = f w.

(** Drawing changes figures only: the DataFrame and the count of
    [plt.show()] calls stay as they are. *)
Definition drawing_only {A : Type} (m : Py A) : Prop :=
  keeps w_frame m /\ keeps w_shows m.

(** What [plt.show()] adds to the store a call ends with. *)
Definition then_shown {A : Type} (r : Result A * World) : Result A * World :=
  match r with
  | (Ok a, w) => (Ok a, mkWorld (w_frame w) (w_figures w) (S (w_shows w)))
  | (Raise e, w) => (Raise e, w)
  end.

(** Labels are unique, as the data model of the specification has
    them. *)
Definition unique_labels (data : DataFrame) : Prop :=
  NoDup (map col_name data).

(** How many columns of [data] carry the label [var]. *)
Definition label_count (data : DataFrame) (var : string) : nat :=
  length (filter (fun c => col_name c = var) data).

(** The dataset of the specification's example. *)
Definition example_frame : DataFrame :=
  [ mkColumn "numeric_a" "float64" [VFloat (1 # 2); VFloat (3 # 2); VMissing];
    mkColumn "categorical_b" "category" [VStr "x"; VStr "y"; VStr "x"];
    mkColumn "Target" "int64" [VInt 0; VInt 1; VInt 1] ].

(** The same columns with the target first instead of last. *)
Definition target_first_frame : DataFrame :=
  [ mkColumn "Target" "int64" [VInt 0; VInt 1; VInt 1];
    mkColumn "numeric_a" "float64" [VFloat (1 # 2); VFloat (3 # 2); VMissing];
    mkColumn "categorical_b" "category" [VStr "x"; VStr "y"; VStr "x"] ].

(** Columns of numeric dtypes other than int64 and float64, one of
    dtype object, and a target. *)
Definition narrow_frame : DataFrame :=
  [ mkColumn "small" "int32" [VInt 1; VInt 2];
    mkColumn "single" "float32" [VFloat (1 # 4); VFloat (3 # 4)];
    mkColumn "text" "object" [VStr "a"; VStr "b"];
    mkColumn "Target" "int64" [VInt 0; VInt 1] ].

(** A dataset in which one label names two columns. *)
Definition twin_frame : DataFrame :=
  [ mkColumn "age" "int64" [VInt 31; VInt 47];
    mkColumn "city" "object" [VStr "Lugo"; VStr "Vigo"];
    mkColumn "city" "category" [VStr "north"; VStr "south"];
    mkColumn "Target" "int64" [VInt 0; VInt 1] ].

(** The panel of column [c] as the specification words it: as
    [distribution_panel], with the y axis labelled "Frequency". *)
Definition spec_distribution_panel (n_rows n_cols : Z) (i : Z) (c : Column) : Axes :=
  if in_int64_float64 (col_dtype c) then
    mkAxes n_rows n_cols (i + 1) [Distplot (SeriesSel c) 20 false]
      (col_name c ++ " distribution") "bold" (col_name c) "Frequency" 0
  else
    mkAxes n_rows n_cols (i + 1) [Countplot (SeriesSel c)]
      (col_name c ++ " distribution") "bold" "" "Frequency" 90.

(** A library on inputs it accepts: it raises at no call.  The runs
    evaluated below on example datasets are runs against it. *)
Definition lenient : Library :=
  {| figure_error := fun _ => None;
     subplot_error := fun _ _ _ => None;
     seaborn_error := fun _ _ => None;
     layout_error := fun _ => None |}.

(** A library that, like seaborn, raises ValueError at a scatter or
    violin plot whose [y] names no column of [data], and accepts every
    other call. *)
Definition target_checking : Library :=
  {| figure_error := fun _ => None;
     subplot_error := fun _ _ _ => None;
     seaborn_error := fun _ a =>
       match a with
       | Scatterplot _ y data _ | Violinplot _ y data =>
           if existsb (fun c => String.eqb (col_name c) y) data then None
           else Some ValueError
       | _ => None
       end;
     layout_error := fun _ => None |}.

(** The logger [name] stands for: the one in the table, or the one
    [getLogger] would create. *)
Definition logger_of (w : Logging) (name : string) : Logger :=
  default (mkLogger NOTSET []) (lw_loggers w !! name).

(** Every handler reference held by a logger names a handler object
    that exists. *)
Definition handlers_allocated (w : Logging) : Prop :=
  forall (name : string) (l : Logger),
    lw_loggers w !! name = Some l ->
    forall h : nat, h ∈ lg_handlers l -> (h < length (lw_handlers w))%nat.

(** A store of the logging module before the first call. *)
Definition fresh_logging : Logging :=
  mkLogging ∅ [] (<["logging.log" := "lines of an earlier run"]> ∅).

(** A store in which another module has configured a logger of its own
    and a second log file exists. *)
Definition busy_logging : Logging :=
  mkLogging
    (<["utils" := mkLogger WARNING [0%nat]]>
       (<["server" := mkLogger ERROR [0%nat; 1%nat]]> ∅))
    [ mkHandler StreamHandler WARNING None;
      mkHandler (FileHandler "server.log" "a") ERROR (Some "%(message)s") ]
    (<["server.log" := "boot"]> (<["logging.log" := "lines of an earlier run"]> ∅)).

(** A file system in which every path is its own file and every file
    can be opened. *)
Definition flat_os : Os :=
  {| file_of := fun path => path;
     open_error := fun _ _ => None |}.

(** The same, without the directory [nodir]. *)
Definition no_nodir_os : Os :=
  {| file_of := fun path => path;
     open_error := fun path _ =>
       if String.prefix "nodir/" path then Some FileNotFoundError else None |}.

(** A file system in which a leading ['./'] does not change the file a
    path designates, and every file can be opened. *)
Definition cwd_os : Os :=
  {| file_of := fun path =>
       if String.prefix "./" path
       then String.substring 2 (String.length path - 2) path
       else path;
     open_error := fun _ _ => None |}.


(** * Properties *)

Local Open Scope list_scope.

(** ** Lists *)

Lemma alter_at_end {A : Type} (f : A -> A) (l : list A) (x : A) :
  alter f (length l) (l ++ [x]) = l ++ [f x].
Proof.
  induction l as [|a l IH]; simpl; [reflexivity|].
  f_equal. exact IH.
Qed.

Lemma lookup_at_end {A : Type} (l : list A) (x : A) :
  (l ++ [x]) !! length l = Some x.
Proof.
  induction l as [|a l IH]; simpl; [reflexivity | exact IH].
Qed.

Lemma enum_map_length {A B : Type} (f : Z -> A -> B) (i : Z) (xs : list A) :
  length (enum_map f i xs) = length xs.
Proof.
  revert i; induction xs as [|x xs IH]; intros i; simpl; [reflexivity|].
  f_equal. apply IH.
Qed.

Lemma enum_map_lookup {A B : Type} (f : Z -> A -> B) (i : Z) (xs : list A)
    (k : nat) (x : A) :
  xs !! k = Some x ->
  enum_map f i xs !! k = Some (f (i + Z.of_nat k) x).
Proof.
  revert i k; induction xs as [|y xs IH]; intros i k H.
  - discriminate H.
  - destruct k as [|k]; simpl in *.
    + injection H as ->. f_equal. f_equal. lia.
    + rewrite (IH (i + 1) k H). f_equal. f_equal. lia.
Qed.

Lemma enum_map_lookup_inv {A B : Type} (f : Z -> A -> B) (i : Z) (xs : list A)
    (k : nat) (y : B) :
  enum_map f i xs !! k = Some y ->
  exists x, xs !! k = Some x /\ y = f (i + Z.of_nat k) x.
Proof.
  intros H.
  assert (Hk : (k < length xs)%nat).
  { apply lookup_lt_Some in H. rewrite enum_map_length in H. exact H. }
  destruct (lookup_lt_is_Some_2 xs k Hk) as [x Hx].
  exists x. split; [exact Hx|].
  rewrite (enum_map_lookup f i xs k x Hx) in H. injection H as <-. reflexivity.
Qed.

Lemma elem_of_enum_map {A B : Type} (f : Z -> A -> B) (i : Z) (xs : list A) (y : B) :
  y ∈ enum_map f i xs ->
  exists (k : nat) (x : A), xs !! k = Some x /\ y = f (i + Z.of_nat k) x.
Proof.
  intros H. apply list_elem_of_lookup in H as (k & Hk).
  exists k. apply enum_map_lookup_inv. exact Hk.
Qed.

Lemma enum_map_app {A B : Type} (f : Z -> A -> B) (i : Z) (xs ys : list A) :
  enum_map f i (xs ++ ys)
  = enum_map f i xs ++ enum_map f (i + Z.of_nat (length xs)) ys.
Proof.
  revert i; induction xs as [|x xs IH]; intros i; cbn [app enum_map length].
  - f_equal. cbn. lia.
  - f_equal. rewrite IH. f_equal. f_equal. lia.
Qed.

Lemma take_enum_map {A B : Type} (f : Z -> A -> B) (i : Z) (xs : list A) (m : nat) :
  take m (enum_map f i xs) = enum_map f i (take m xs).
Proof.
  revert i m; induction xs as [|x xs IH]; intros i m.
  - destruct m; reflexivity.
  - destruct m as [|m]; [reflexivity|]. cbn [take enum_map firstn].
    f_equal. apply IH.
Qed.

Lemma but_last_snoc {A : Type} (l : list A) (x : A) :
  but_last (l ++ [x]) = l.
Proof.
  unfold but_last. rewrite length_app. simpl.
  replace (length l + 1 - 1)%nat with (length l) by lia.
  rewrite firstn_app, Nat.sub_diag, firstn_all. simpl. apply app_nil_r.
Qed.

Lemma but_last_map {A B : Type} (f : A -> B) (l : list A) :
  but_last (map f l) = map f (but_last l).
Proof.
  unfold but_last. rewrite length_map. apply firstn_map.
Qed.

Lemma but_last_length {A : Type} (l : list A) :
  length (but_last l) = (length l - 1)%nat.
Proof. unfold but_last. rewrite length_take. lia. Qed.

Lemma elem_of_but_last {A : Type} (l : list A) (x : A) :
  x ∈ but_last l -> x ∈ l.
Proof.
  unfold but_last. intros H.
  rewrite <- (take_drop (length l - 1) l). apply elem_of_app. left. exact H.
Qed.

(** ** Label lookup *)

Lemma filter_label_absent (data : DataFrame) (var : string) :
  var ∉ map col_name data ->
  filter (fun c => col_name c = var) data = [].
Proof.
  induction data as [|c data IH]; intros Hn; [reflexivity|].
  simpl in Hn. apply not_elem_of_cons in Hn as [Hne Hn].
  rewrite filter_cons_False by (intros E; apply Hne; symmetry; exact E).
  apply IH. exact Hn.
Qed.

Lemma filter_label_unique (data : DataFrame) (c : Column) :
  unique_labels data -> c ∈ data ->
  filter (fun c' => col_name c' = col_name c) data = [c].
Proof.
  unfold unique_labels.
  induction data as [|c0 data IH]; intros Hnd Hin; [inversion Hin|].
  simpl in Hnd. apply NoDup_cons in Hnd as [Hnotin Hnd].
  apply elem_of_cons in Hin as [-> | Hin].
  - rewrite filter_cons_True by reflexivity.
    f_equal. apply filter_label_absent. exact Hnotin.
  - rewrite filter_cons_False.
    + apply IH; assumption.
    + intros E. apply Hnotin. rewrite E.
      apply list_elem_of_In, in_map, list_elem_of_In. exact Hin.
Qed.

Lemma label_count_unique (data : DataFrame) (c : Column) :
  unique_labels data -> c ∈ data -> label_count data (col_name c) = 1%nat.
Proof.
  intros Hu Hin. unfold label_count.
  rewrite (filter_label_unique data c Hu Hin). reflexivity.
Qed.

Lemma label_count_app (xs ys : DataFrame) (var : string) :
  label_count (xs ++ ys) var = (label_count xs var + label_count ys var)%nat.
Proof. unfold label_count. rewrite filter_app, length_app. reflexivity. Qed.

Lemma label_count_member (data : DataFrame) (c : Column) :
  c ∈ data -> (1 <= label_count data (col_name c))%nat.
Proof.
  intros Hin. unfold label_count.
  assert (H : c ∈ filter (fun c' => col_name c' = col_name c) data)
    by (apply list_elem_of_filter; split; [reflexivity | exact Hin]).
  destruct (filter _ data); [inversion H | cbn; lia].
Qed.

Lemma label_count_found (data : DataFrame) (var : string) :
  (1 <= label_count data var)%nat ->
  exists c, c ∈ data /\ col_name c = var.
Proof.
  unfold label_count. intros H.
  destruct (filter (fun c => col_name c = var) data) as [|c cs] eqn:E;
    [cbn in H; lia|].
  assert (Hc : c ∈ filter (fun c => col_name c = var) data)
    by (rewrite E; left).
  apply list_elem_of_filter in Hc as [Hn Hin]. exists c. split; assumption.
Qed.

Lemma filter_of_single_label (data : DataFrame) (c : Column) :
  c ∈ data -> label_count data (col_name c) = 1%nat ->
  filter (fun c' => col_name c' = col_name c) data = [c].
Proof.
  intros Hin Hone. unfold label_count in Hone.
  assert (H : c ∈ filter (fun c' => col_name c' = col_name c) data)
    by (apply list_elem_of_filter; split; [reflexivity | exact Hin]).
  destruct (filter _ data) as [|c1 [|c2 cs]]; cbn in Hone; try lia.
  apply list_elem_of_singleton in H. rewrite H. reflexivity.
Qed.

Lemma unique_of_label_counts (data : DataFrame) :
  (forall c, c ∈ data -> label_count data (col_name c) = 1%nat) ->
  unique_labels data.
Proof.
  unfold unique_labels.
  induction data as [|c0 data IH]; intros H; [apply NoDup_nil; exact I|].
  cbn [map]. apply NoDup_cons.
  pose proof (H c0 ltac:(left)) as H0.
  change (c0 :: data) with ([c0] ++ data) in H0.
  rewrite label_count_app in H0.
  assert (Hc0 : label_count [c0] (col_name c0) = 1%nat).
  { unfold label_count. rewrite filter_cons_True by reflexivity. reflexivity. }
  rewrite Hc0 in H0.
  split.
  - intros Hin. apply list_elem_of_In, in_map_iff in Hin as (c & Hn & Hc).
    apply list_elem_of_In in Hc.
    pose proof (label_count_member data c Hc) as Hp.
    rewrite Hn in Hp. lia.
  - apply IH. intros c Hc.
    pose proof (H c ltac:(right; exact Hc)) as H1.
    change (c0 :: data) with ([c0] ++ data) in H1.
    rewrite label_count_app in H1.
    pose proof (label_count_member data c Hc). lia.
Qed.

Lemma label_counts_from_but_last (data : DataFrame) :
  (forall c, c ∈ but_last data -> label_count data (col_name c) = 1%nat) ->
  forall c, c ∈ data -> label_count data (col_name c) = 1%nat.
Proof.
  destruct data as [|c0 data0] using rev_ind; intros H c Hc; [inversion Hc|].
  rewrite but_last_snoc in H.
  apply elem_of_app in Hc as [Hc | Hc]; [apply H; exact Hc|].
  apply list_elem_of_singleton in Hc. subst c.
  destruct (label_count data0 (col_name c0)) as [|k] eqn:E.
  - rewrite label_count_app, E. unfold label_count.
    rewrite filter_cons_True by reflexivity. reflexivity.
  - destruct (label_count_found data0 (col_name c0) ltac:(lia)) as (c & Hin & Hn).
    rewrite <- Hn. apply H. exact Hin.
Qed.

Lemma unique_labels_dec (data : DataFrame) :
  unique_labels data \/ ~ unique_labels data.
Proof.
  unfold unique_labels.
  destruct (decide (NoDup (map col_name data))); [left | right]; assumption.
Qed.

(** [data[var]] and its dtype test, for a label of [data]. *)
Lemma getitem_single (data : DataFrame) (c : Column) (figs : list Figure) (n : nat) :
  c ∈ data -> label_count data (col_name c) = 1%nat ->
  getitem (col_name c) (mkWorld data figs n) = (Ok (SeriesSel c), mkWorld data figs n).
Proof.
  intros Hin Hone. unfold getitem. cbn [w_frame].
  rewrite (filter_of_single_label data c Hin Hone). reflexivity.
Qed.

Lemma existsb_same_label (l : list Column) (var : string) :
  (forall x, x ∈ l -> col_name x = var) -> l <> [] ->
  existsb (fun c => String.eqb (col_name c) "dtype") l = String.eqb var "dtype".
Proof.
  intros Hl Hne. destruct (String.eqb var "dtype") eqn:Ev.
  - destruct l as [|c l]; [contradiction|].
    cbn [existsb]. rewrite (Hl c ltac:(left)), Ev. reflexivity.
  - apply not_true_is_false. intros Hex.
    apply existsb_exists in Hex as (x & Hx & Hxe).
    apply list_elem_of_In in Hx. rewrite (Hl x Hx), Ev in Hxe. discriminate Hxe.
Qed.

Lemma dtype_of_several (data : DataFrame) (var : string) (figs : list Figure)
    (n : nat) :
  (1 < label_count data var)%nat ->
  bind (getitem var) dtype (mkWorld data figs n)
  = (Raise (ambiguous_label_error var), mkWorld data figs n).
Proof.
  intros H. unfold bind, getitem, label_count in *. cbn [w_frame].
  assert (Hall : forall x, x ∈ filter (fun c => col_name c = var) data ->
                           col_name x = var).
  { intros x Hx. apply list_elem_of_filter in Hx as [Hx _]. exact Hx. }
  destruct (filter (fun c => col_name c = var) data) as [|c1 [|c2 cs]];
    cbn in H; try lia.
  unfold dtype, ambiguous_label_error.
  rewrite (existsb_same_label (c1 :: c2 :: cs) var Hall ltac:(discriminate)).
  destruct (String.eqb var "dtype"); reflexivity.
Qed.

(** ** One turn of each loop *)

Lemma bind_bind_raise {W A B C : Type} (m : M W A) (f : A -> M W B)
    (g : B -> M W C) (w w' : W) (e : Exn) :
  bind m f w = (Raise e, w') ->
  bind m (fun a => bind (f a) g) w = (Raise e, w').
Proof.
  unfold bind. destruct (m w) as [[a|e0] w1].
  - destruct (f a w1) as [[b|e1] w2]; [discriminate|].
    intros H. injection H as -> ->. reflexivity.
  - intros H. injection H as -> ->. reflexivity.
Qed.

Section Turns.
Context {L : Library}.

Lemma axes_at_end (data : DataFrame) (figs : list Figure) (fg : Figure)
    (a : Axes) (n : nat) :
  axes_at (length figs, length (fig_axes fg))
    (mkWorld data (figs ++ [add_axes fg a]) n) = Some a.
Proof.
  unfold axes_at. cbn [fst snd w_figures]. rewrite lookup_at_end.
  cbn [add_axes fig_axes]. apply lookup_at_end.
Qed.

Lemma add_subplot_run (data : DataFrame) (figs : list Figure) (fg : Figure)
    (n : nat) (nrows ncols index : Z) :
  add_subplot (length figs) nrows ncols index (mkWorld data (figs ++ [fg]) n)
  = match subplot_error nrows ncols index with
    | Some e => (Raise e, mkWorld data (figs ++ [fg]) n)
    | None =>
        (Ok (length figs, length (fig_axes fg)),
         mkWorld data (figs ++ [add_axes fg (new_axes nrows ncols index)]) n)
    end.
Proof.
  unfold add_subplot. destruct (subplot_error nrows ncols index); [reflexivity|].
  cbn [w_frame w_figures w_shows].
  rewrite lookup_at_end, alter_at_end. reflexivity.
Qed.

Lemma draw_run (data : DataFrame) (figs : list Figure) (fg : Figure) (x : Axes)
    (n : nat) (a : Artist) :
  draw a (length figs, length (fig_axes fg))
    (mkWorld data (figs ++ [add_axes fg x]) n)
  = match seaborn_error x a with
    | Some e => (Raise e, mkWorld data (figs ++ [add_axes fg x]) n)
    | None =>
        (Ok tt,
         mkWorld data
           (figs ++ [add_axes fg
                       (mkAxes (ax_nrows x) (ax_ncols x) (ax_index x)
                          (ax_artists x ++ [a]) (ax_title x) (ax_title_weight x)
                          (ax_xlabel x) (ax_ylabel x) (ax_xtick_rotation x))])
           n)
    end.
Proof.
  unfold draw. rewrite axes_at_end. destruct (seaborn_error x a); [reflexivity|].
  unfold on_axes, on_figure, add_axes.
  cbn [fst snd w_frame w_figures w_shows].
  rewrite alter_at_end. cbn [fig_size fig_axes fig_tight].
  rewrite alter_at_end. reflexivity.
Qed.

Lemma on_axes_run (data : DataFrame) (figs : list Figure) (fg : Figure) (x : Axes)
    (n : nat) (f : Axes -> Axes) :
  on_axes (length figs, length (fig_axes fg)) f
    (mkWorld data (figs ++ [add_axes fg x]) n)
  = (Ok tt, mkWorld data (figs ++ [add_axes fg (f x)]) n).
Proof.
  unfold on_axes, on_figure, add_axes.
  cbn [fst snd w_frame w_figures w_shows].
  rewrite alter_at_end. cbn [fig_size fig_axes fig_tight].
  rewrite alter_at_end. reflexivity.
Qed.

Ltac run_setters :=
  unfold set_title, set_xlabel, set_ylabel, rotate_xticklabels;
  repeat (unfold bind at 1; rewrite on_axes_run);
  try rewrite on_axes_run.

(** What one turn of the loop of [plot_distributions] does, for a
    column of [data], in the three ways it can end: the library raises
    at [add_subplot]; the Axes is added and either the label names
    several columns or seaborn raises; the panel is drawn. *)
Lemma plot_distributions_body_run (data : DataFrame) (figs : list Figure)
    (fg : Figure) (n : nat) (n_rows n_cols i : Z) (c : Column) :
  c ∈ data ->
  plot_distributions_body (length figs) n_rows n_cols i (col_name c)
    (mkWorld data (figs ++ [fg]) n)
  = match subplot_error n_rows n_cols (i + 1) with
    | Some e => (Raise e, mkWorld data (figs ++ [fg]) n)
    | None =>
        if Nat.eqb (label_count data (col_name c)) 1 then
          match seaborn_error (new_axes n_rows n_cols (i + 1))
                  (distribution_artist c) with
          | Some e =>
              (Raise e,
               mkWorld data
                 (figs ++ [add_axes fg (new_axes n_rows n_cols (i + 1))]) n)
          | None =>
              (Ok tt,
               mkWorld data
                 (figs ++ [add_axes fg (distribution_panel n_rows n_cols i c)]) n)
          end
        else
          (Raise (ambiguous_label_error (col_name c)),
           mkWorld data
             (figs ++ [add_axes fg (new_axes n_rows n_cols (i + 1))]) n)
    end.
Proof.
  intros Hin. unfold plot_distributions_body.
  unfold bind at 1. rewrite add_subplot_run.
  destruct (subplot_error n_rows n_cols (i + 1)); [reflexivity|].
  destruct (Nat.eqb (label_count data (col_name c)) 1) eqn:E.
  - apply Nat.eqb_eq in E.
    unfold bind at 1. rewrite getitem_single by assumption.
    unfold bind at 1. cbn [dtype ret].
    unfold distribution_artist, distribution_panel.
    destruct (in_int64_float64 (col_dtype c)).
    + unfold bind at 1. rewrite getitem_single by assumption.
      unfold bind at 1. unfold sns_distplot. rewrite draw_run.
      destruct (seaborn_error _ _); [reflexivity|].
      run_setters. reflexivity.
    + unfold bind at 1. rewrite getitem_single by assumption.
      unfold bind at 1. unfold sns_countplot. rewrite draw_run.
      destruct (seaborn_error _ _); [reflexivity|].
      run_setters. reflexivity.
  - apply Nat.eqb_neq in E.
    pose proof (label_count_member data c Hin) as Hge.
    pose proof (dtype_of_several data (col_name c)
                  (figs ++ [add_axes fg (new_axes n_rows n_cols (i + 1))]) n
                  ltac:(lia)) as Hd.
    apply bind_bind_raise. exact Hd.
Qed.

Lemma plot_vars_vs_target_body_run (data : DataFrame) (figs : list Figure)
    (fg : Figure) (n : nat) (var_target : string) (n_rows n_cols i : Z)
    (c : Column) :
  c ∈ data ->
  plot_vars_vs_target_body (length figs) var_target n_rows n_cols i (col_name c)
    (mkWorld data (figs ++ [fg]) n)
  = match subplot_error n_rows n_cols (i + 1) with
    | Some e => (Raise e, mkWorld data (figs ++ [fg]) n)
    | None =>
        if Nat.eqb (label_count data (col_name c)) 1 then
          match match relation_artist data var_target c with
                | Some a => seaborn_error (new_axes n_rows n_cols (i + 1)) a
                | None => None
                end with
          | Some e =>
              (Raise e,
               mkWorld data
                 (figs ++ [add_axes fg (new_axes n_rows n_cols (i + 1))]) n)
          | None =>
              (Ok tt,
               mkWorld data
                 (figs ++ [add_axes fg
                             (relation_panel data var_target n_rows n_cols i c)])
                 n)
          end
        else
          (Raise (ambiguous_label_error (col_name c)),
           mkWorld data
             (figs ++ [add_axes fg (new_axes n_rows n_cols (i + 1))]) n)
    end.
Proof.
  intros Hin. unfold plot_vars_vs_target_body.
  unfold bind at 1. rewrite add_subplot_run.
  destruct (subplot_error n_rows n_cols (i + 1)); [reflexivity|].
  destruct (Nat.eqb (label_count data (col_name c)) 1) eqn:E.
  - apply Nat.eqb_eq in E.
    unfold bind at 1. rewrite getitem_single by assumption.
    unfold bind at 1. cbn [dtype ret].
    unfold relation_artist, relation_panel.
    destruct (in_int64_float64 (col_dtype c)).
    + unfold bind at 1. unfold sns_scatterplot. cbn [w_frame]. rewrite draw_run.
      destruct (seaborn_error _ _); [reflexivity|].
      run_setters. reflexivity.
    + unfold bind at 1. rewrite getitem_single by assumption.
      unfold bind at 1. cbn [dtype ret].
      destruct (is_category (col_dtype c)).
      * unfold bind at 1. unfold sns_violinplot. cbn [w_frame]. rewrite draw_run.
        destruct (seaborn_error _ _); [reflexivity|].
        run_setters. reflexivity.
      * reflexivity.
  - apply Nat.eqb_neq in E.
    pose proof (label_count_member data c Hin) as Hge.
    pose proof (dtype_of_several data (col_name c)
                  (figs ++ [add_axes fg (new_axes n_rows n_cols (i + 1))]) n
                  ltac:(lia)) as Hd.
    apply bind_bind_raise. exact Hd.
Qed.

End Turns.

(** ** The loops *)

Section Loops.
Context {L : Library}.

Lemma add_axes_nothing (fg : Figure) :
  mkFigure (fig_size fg) (fig_axes fg ++ []) (fig_tight fg) = fg.
Proof. destruct fg; cbn. rewrite app_nil_r. reflexivity. Qed.

Lemma add_axes_more (fg : Figure) (a : Axes) (l : list Axes) :
  mkFigure (fig_size (add_axes fg a)) (fig_axes (add_axes fg a) ++ l)
    (fig_tight (add_axes fg a))
  = mkFigure (fig_size fg) (fig_axes fg ++ a :: l) (fig_tight fg).
Proof. unfold add_axes. cbn. rewrite <- app_assoc. reflexivity. Qed.

(** The loop of [plot_distributions] when the library accepts the calls
    of every turn and no label is ambiguous. *)
Lemma plot_distributions_loop_accepted (data : DataFrame) (figs : list Figure)
    (n : nat) (n_rows n_cols : Z) :
  forall (cs : list Column) (i : Z) (fg : Figure),
    (forall c, c ∈ cs -> c ∈ data /\ label_count data (col_name c) = 1%nat) ->
    (forall (k : nat) (c : Column),
       cs !! k = Some c ->
       distribution_turn_error n_rows n_cols (i + Z.of_nat k) c = None) ->
    for_enumerate i (map col_name cs)
      (plot_distributions_body (length figs) n_rows n_cols)
      (mkWorld data (figs ++ [fg]) n)
    = (Ok tt,
       mkWorld data
         (figs ++ [mkFigure (fig_size fg)
                     (fig_axes fg ++ enum_map (distribution_panel n_rows n_cols) i cs)
                     (fig_tight fg)])
         n).
Proof.
  intros cs. induction cs as [|c cs IH]; intros i fg Hcs Hacc.
  - cbn [map for_enumerate enum_map ret]. rewrite add_axes_nothing. reflexivity.
  - cbn [map for_enumerate enum_map]. unfold bind at 1.
    destruct (Hcs c ltac:(left)) as [Hin Hone].
    rewrite plot_distributions_body_run by exact Hin.
    pose proof (Hacc 0%nat c eq_refl) as H0. unfold distribution_turn_error in H0.
    replace (i + Z.of_nat 0) with i in H0 by (cbn; lia).
    destruct (subplot_error n_rows n_cols (i + 1)); [discriminate H0|].
    rewrite Hone, H0. cbn [Nat.eqb].
    rewrite IH.
    + rewrite add_axes_more. reflexivity.
    + intros c' Hc'. apply Hcs. right. exact Hc'.
    + intros k c' Hk. specialize (Hacc (S k) c' Hk).
      replace (i + 1 + Z.of_nat k) with (i + Z.of_nat (S k)) by lia. exact Hacc.
Qed.

Lemma plot_vars_vs_target_loop_accepted (data : DataFrame) (figs : list Figure)
    (n : nat) (var_target : string) (n_rows n_cols : Z) :
  forall (cs : list Column) (i : Z) (fg : Figure),
    (forall c, c ∈ cs -> c ∈ data /\ label_count data (col_name c) = 1%nat) ->
    (forall (k : nat) (c : Column),
       cs !! k = Some c ->
       relation_turn_error data var_target n_rows n_cols (i + Z.of_nat k) c = None) ->
    for_enumerate i (map col_name cs)
      (plot_vars_vs_target_body (length figs) var_target n_rows n_cols)
      (mkWorld data (figs ++ [fg]) n)
    = (Ok tt,
       mkWorld data
         (figs ++ [mkFigure (fig_size fg)
                     (fig_axes fg
                      ++ enum_map (relation_panel data var_target n_rows n_cols) i cs)
                     (fig_tight fg)])
         n).
Proof.
  intros cs. induction cs as [|c cs IH]; intros i fg Hcs Hacc.
  - cbn [map for_enumerate enum_map ret]. rewrite add_axes_nothing. reflexivity.
  - cbn [map for_enumerate enum_map]. unfold bind at 1.
    destruct (Hcs c ltac:(left)) as [Hin Hone].
    rewrite plot_vars_vs_target_body_run by exact Hin.
    pose proof (Hacc 0%nat c eq_refl) as H0. unfold relation_turn_error in H0.
    replace (i + Z.of_nat 0) with i in H0 by (cbn; lia).
    destruct (subplot_error n_rows n_cols (i + 1)); [discriminate H0|].
    rewrite Hone, H0. cbn [Nat.eqb].
    rewrite IH.
    + rewrite add_axes_more. reflexivity.
    + intros c' Hc'. apply Hcs. right. exact Hc'.
    + intros k c' Hk. specialize (Hacc (S k) c' Hk).
      replace (i + 1 + Z.of_nat k) with (i + Z.of_nat (S k)) by lia. exact Hacc.
Qed.

Lemma cut_short_nothing (n_rows n_cols i : Z) (panels : list Axes) :
  cut_short n_rows n_cols i panels [].
Proof. exists 0%nat. split; [lia|]. left. reflexivity. Qed.

Lemma cut_short_all (n_rows n_cols i : Z) (panels : list Axes) :
  cut_short n_rows n_cols i panels panels.
Proof.
  exists (length panels). split; [lia|]. left. rewrite firstn_all. reflexivity.
Qed.

Lemma cut_short_first (n_rows n_cols i : Z) (p : Axes) (panels : list Axes) :
  cut_short n_rows n_cols i (p :: panels) [new_axes n_rows n_cols (i + 1)].
Proof.
  exists 0%nat. split; [cbn; lia|]. right. split; [cbn; lia|].
  cbn [take firstn app]. replace (i + Z.of_nat 0 + 1) with (i + 1) by (cbn; lia).
  reflexivity.
Qed.

Lemma cut_short_cons (n_rows n_cols i : Z) (p : Axes) (panels axes : list Axes) :
  cut_short n_rows n_cols (i + 1) panels axes ->
  cut_short n_rows n_cols i (p :: panels) (p :: axes).
Proof.
  intros (m & Hm & [-> | [Hlt ->]]); exists (S m); (split; [cbn; lia|]).
  - left. reflexivity.
  - right. split; [cbn; lia|]. cbn [take firstn app].
    replace (i + Z.of_nat (S m) + 1) with (i + 1 + Z.of_nat m + 1) by lia.
    reflexivity.
Qed.

(** The loop of [plot_distributions] on any run: whatever the library
    does, the store ends as the one of the complete run, cut short. *)
Lemma plot_distributions_loop_any (data : DataFrame) (figs : list Figure)
    (n : nat) (n_rows n_cols : Z) :
  forall (cs : list Column) (i : Z) (fg : Figure),
    (forall c, c ∈ cs -> c ∈ data) ->
    exists (res : Result unit) (axes : list Axes),
      for_enumerate i (map col_name cs)
        (plot_distributions_body (length figs) n_rows n_cols)
        (mkWorld data (figs ++ [fg]) n)
      = (res,
         mkWorld data
           (figs ++ [mkFigure (fig_size fg) (fig_axes fg ++ axes) (fig_tight fg)]) n)
      /\ cut_short n_rows n_cols i
           (enum_map (distribution_panel n_rows n_cols) i cs) axes
      /\ (res = Ok tt -> axes = enum_map (distribution_panel n_rows n_cols) i cs).
Proof.
  intros cs. induction cs as [|c cs IH]; intros i fg Hcs.
  - exists (Ok tt), []. cbn [map for_enumerate enum_map ret].
    rewrite add_axes_nothing. split; [reflexivity|].
    split; [apply cut_short_nothing | reflexivity].
  - cbn [map for_enumerate enum_map]. unfold bind at 1.
    rewrite plot_distributions_body_run by (apply Hcs; left).
    destruct (subplot_error n_rows n_cols (i + 1)) as [e|].
    { exists (Raise e), []. rewrite add_axes_nothing. split; [reflexivity|].
      split; [apply cut_short_nothing | discriminate]. }
    destruct (Nat.eqb (label_count data (col_name c)) 1).
    + destruct (seaborn_error _ _) as [e|].
      { exists (Raise e), [new_axes n_rows n_cols (i + 1)].
        split; [reflexivity|]. split; [apply cut_short_first | discriminate]. }
      destruct (IH (i + 1) (add_axes fg (distribution_panel n_rows n_cols i c))
                  ltac:(intros c' Hc'; apply Hcs; right; exact Hc'))
        as (res & axes & E & Hcut & Hok).
      exists res, (distribution_panel n_rows n_cols i c :: axes).
      rewrite E, add_axes_more. split; [reflexivity|].
      split; [apply cut_short_cons; exact Hcut|].
      intros Hres. rewrite (Hok Hres). reflexivity.
    + exists (Raise (ambiguous_label_error (col_name c))),
        [new_axes n_rows n_cols (i + 1)].
      split; [reflexivity|]. split; [apply cut_short_first | discriminate].
Qed.

Lemma plot_vars_vs_target_loop_any (data : DataFrame) (figs : list Figure)
    (n : nat) (var_target : string) (n_rows n_cols : Z) :
  forall (cs : list Column) (i : Z) (fg : Figure),
    (forall c, c ∈ cs -> c ∈ data) ->
    exists (res : Result unit) (axes : list Axes),
      for_enumerate i (map col_name cs)
        (plot_vars_vs_target_body (length figs) var_target n_rows n_cols)
        (mkWorld data (figs ++ [fg]) n)
      = (res,
         mkWorld data
           (figs ++ [mkFigure (fig_size fg) (fig_axes fg ++ axes) (fig_tight fg)]) n)
      /\ cut_short n_rows n_cols i
           (enum_map (relation_panel data var_target n_rows n_cols) i cs) axes
      /\ (res = Ok tt ->
          axes = enum_map (relation_panel data var_target n_rows n_cols) i cs).
Proof.
  intros cs. induction cs as [|c cs IH]; intros i fg Hcs.
  - exists (Ok tt), []. cbn [map for_enumerate enum_map ret].
    rewrite add_axes_nothing. split; [reflexivity|].
    split; [apply cut_short_nothing | reflexivity].
  - cbn [map for_enumerate enum_map]. unfold bind at 1.
    rewrite plot_vars_vs_target_body_run by (apply Hcs; left).
    destruct (subplot_error n_rows n_cols (i + 1)) as [e|].
    { exists (Raise e), []. rewrite add_axes_nothing. split; [reflexivity|].
      split; [apply cut_short_nothing | discriminate]. }
    destruct (Nat.eqb (label_count data (col_name c)) 1).
    + destruct (match relation_artist data var_target c with
                | Some a => seaborn_error (new_axes n_rows n_cols (i + 1)) a
                | None => None
                end) as [e|].
      { exists (Raise e), [new_axes n_rows n_cols (i + 1)].
        split; [reflexivity|]. split; [apply cut_short_first | discriminate]. }
      destruct (IH (i + 1)
                  (add_axes fg (relation_panel data var_target n_rows n_cols i c))
                  ltac:(intros c' Hc'; apply Hcs; right; exact Hc'))
        as (res & axes & E & Hcut & Hok).
      exists res, (relation_panel data var_target n_rows n_cols i c :: axes).
      rewrite E, add_axes_more. split; [reflexivity|].
      split; [apply cut_short_cons; exact Hcut|].
      intros Hres. rewrite (Hok Hres). reflexivity.
    + exists (Raise (ambiguous_label_error (col_name c))),
        [new_axes n_rows n_cols (i + 1)].
      split; [reflexivity|]. split; [apply cut_short_first | discriminate].
Qed.

End Loops.

(** ** Whole calls *)

Lemma floordiv_run (a b : Z) (w : World) :
  b <> 0 -> floordiv a b w = (Ok (a / b), w).
Proof.
  intros Hb. unfold floordiv. apply Z.eqb_neq in Hb. rewrite Hb. reflexivity.
Qed.

(** The row count is the floor of the quotient, plus one. *)
Lemma floor_plus_one (cc m : Z) :
  1 <= m ->
  (cc / m + 1 - 1) * m <= cc < (cc / m + 1) * m.
Proof.
  intros Hm.
  pose proof (Z.div_mod cc m ltac:(lia)) as E.
  pose proof (Z.mod_pos_bound cc m ltac:(lia)) as B.
  nia.
Qed.

Lemma grid_rows_positive (data : DataFrame) (n_cols : Z) :
  1 <= n_cols -> 1 <= grid_rows data n_cols.
Proof.
  intros Hn. unfold grid_rows.
  pose proof (Z.div_pos (Z.of_nat (length data)) n_cols ltac:(lia) ltac:(lia)). lia.
Qed.

(** Every index handed to [add_subplot] lies inside the grid that was
    computed. *)
Lemma subplot_index_in_grid (data : DataFrame) (n_cols : Z) (k : nat) :
  1 <= n_cols -> (k < length data)%nat ->
  1 <= Z.of_nat k + 1 <= grid_rows data n_cols * n_cols.
Proof.
  intros Hm Hk. unfold grid_rows.
  pose proof (floor_plus_one (Z.of_nat (length data)) n_cols Hm). lia.
Qed.

Section Calls.
Context {L : Library}.

Lemma plt_figure_run (data : DataFrame) (figs : list Figure) (n : nat)
    (n_cols : Z) :
  1 <= n_cols ->
  plt_figure (20, 5 * grid_rows data n_cols) (mkWorld data figs n)
  = (Ok (length figs),
     mkWorld data (figs ++ [mkFigure (20, 5 * grid_rows data n_cols) [] false]) n).
Proof.
  intros Hn. unfold plt_figure, figure_outcome. cbn [fst snd w_frame w_figures w_shows].
  pose proof (grid_rows_positive data n_cols Hn).
  replace (Z.ltb 0 (5 * grid_rows data n_cols)) with true
    by (symmetry; apply Z.ltb_lt; lia).
  reflexivity.
Qed.

Lemma tight_layout_run (data : DataFrame) (figs : list Figure) (fg : Figure)
    (n : nat) :
  tight_layout (length figs) (mkWorld data (figs ++ [fg]) n)
  = match layout_outcome fg with
    | Some e => (Raise e, mkWorld data (figs ++ [fg]) n)
    | None =>
        (Ok tt,
         mkWorld data (figs ++ [mkFigure (fig_size fg) (fig_axes fg) true]) n)
    end.
Proof.
  unfold tight_layout. cbn [w_figures]. rewrite lookup_at_end.
  destruct (layout_outcome fg); [reflexivity|].
  unfold on_figure. cbn [w_frame w_figures w_shows]. rewrite alter_at_end.
  reflexivity.
Qed.

(** A call of [plot_distributions] during which the library raises at
    no call, on a dataset with unique labels. *)
Lemma plot_distributions_run (data : DataFrame) (figs : list Figure)
    (shows : nat) (n_cols : Z) (show : bool) :
  1 <= n_cols -> unique_labels data -> distributions_accepted data n_cols ->
  call (plot_distributions n_cols show) data figs shows
  = (Ok (length figs),
     mkWorld data
       (figs ++ [mkFigure (20, 5 * grid_rows data n_cols)
                   (enum_map (distribution_panel (grid_rows data n_cols) n_cols) 0 data)
                   true])
       (if show then S shows else shows)).
Proof.
  intros Hn Hu [Hturns Hlayout]. unfold call, plot_distributions.
  unfold bind at 1. unfold columns at 1. cbn [w_frame].
  unfold bind at 1. rewrite floordiv_run by lia. rewrite length_map.
  change (Z.of_nat (length data) / n_cols + 1) with (grid_rows data n_cols).
  cbv zeta.
  unfold bind at 1. rewrite plt_figure_run by exact Hn.
  unfold bind at 1. unfold columns at 1. cbn [w_frame].
  unfold bind at 1. rewrite plot_distributions_loop_accepted.
  - cbn [fig_size fig_axes fig_tight app].
    unfold bind at 1. rewrite tight_layout_run, Hlayout.
    cbn [fig_size fig_axes fig_tight].
    destruct show; reflexivity.
  - intros c Hc. split; [exact Hc | apply label_count_unique; assumption].
  - intros k c Hk. rewrite Z.add_0_l. apply Hturns. exact Hk.
Qed.

Lemma plot_vars_vs_target_run (data : DataFrame) (figs : list Figure)
    (shows : nat) (var_target : string) (n_cols : Z) (show : bool) :
  1 <= n_cols -> unique_labels data -> relations_accepted data var_target n_cols ->
  call (plot_vars_vs_target var_target n_cols show) data figs shows
  = (Ok (length figs),
     mkWorld data
       (figs ++ [mkFigure (20, 5 * grid_rows data n_cols)
                   (enum_map
                      (relation_panel data var_target (grid_rows data n_cols) n_cols)
                      0 (but_last data))
                   true])
       (if show then S shows else shows)).
Proof.
  intros Hn Hu [Hturns Hlayout]. unfold call, plot_vars_vs_target.
  unfold bind at 1. unfold columns at 1. cbn [w_frame].
  unfold bind at 1. rewrite floordiv_run by lia. rewrite length_map.
  change (Z.of_nat (length data) / n_cols + 1) with (grid_rows data n_cols).
  cbv zeta.
  unfold bind at 1. rewrite plt_figure_run by exact Hn.
  unfold bind at 1. unfold columns at 1. cbn [w_frame].
  rewrite but_last_map.
  unfold bind at 1. rewrite plot_vars_vs_target_loop_accepted.
  - cbn [fig_size fig_axes fig_tight app].
    unfold bind at 1. rewrite tight_layout_run, Hlayout.
    cbn [fig_size fig_axes fig_tight].
    destruct show; reflexivity.
  - intros c Hc. apply elem_of_but_last in Hc.
    split; [exact Hc | apply label_count_unique; assumption].
  - intros k c Hk. rewrite Z.add_0_l. apply Hturns. exact Hk.
Qed.

(** Any call of [plot_distributions] with [n_cols >= 1], whatever the
    library does and whatever the labels are: the figure is created
    with the computed size, stays in pyplot's table after the figures
    that were there, and holds the panels of a complete run, cut short
    if the run was. *)
Lemma plot_distributions_any_run (data : DataFrame) (figs : list Figure)
    (shows : nat) (n_cols : Z) (show : bool) :
  1 <= n_cols ->
  exists (res : Result FigRef) (fg : Figure) (sh : nat),
    call (plot_distributions n_cols show) data figs shows
    = (res, mkWorld data (figs ++ [fg]) sh)
    /\ fig_size fg = (20, 5 * grid_rows data n_cols)
    /\ cut_short (grid_rows data n_cols) n_cols 0
         (enum_map (distribution_panel (grid_rows data n_cols) n_cols) 0 data)
         (fig_axes fg)
    /\ (forall fig, res = Ok fig ->
          fig = length figs
          /\ fig_axes fg
             = enum_map (distribution_panel (grid_rows data n_cols) n_cols) 0 data
          /\ fig_tight fg = true).
Proof.
  intros Hn. unfold call, plot_distributions.
  unfold bind at 1. unfold columns at 1. cbn [w_frame].
  unfold bind at 1. rewrite floordiv_run by lia. rewrite length_map.
  change (Z.of_nat (length data) / n_cols + 1) with (grid_rows data n_cols).
  cbv zeta.
  unfold bind at 1. rewrite plt_figure_run by exact Hn.
  unfold bind at 1. unfold columns at 1. cbn [w_frame].
  destruct (plot_distributions_loop_any data figs shows (grid_rows data n_cols)
              n_cols data 0
              (mkFigure (20, 5 * grid_rows data n_cols) [] false) ltac:(auto))
    as (res & axes & E & Hcut & Hok).
  unfold bind at 1. rewrite E. cbn [fig_size fig_axes fig_tight app].
  destruct res as [[]|e].
  - rewrite (Hok eq_refl). unfold bind at 1. rewrite tight_layout_run.
    destruct (layout_outcome _) as [e|].
    + eexists _, _, _. split; [reflexivity|]. split; [reflexivity|].
      split; [apply cut_short_all | discriminate].
    + cbn [fig_size fig_axes fig_tight].
      destruct show; (eexists _, _, _; split; [reflexivity|];
        split; [reflexivity|]; split; [apply cut_short_all|];
        intros fig Hfig; injection Hfig as <-; repeat split; reflexivity).
  - eexists _, _, _. split; [reflexivity|]. split; [reflexivity|].
    split; [exact Hcut | discriminate].
Qed.

Lemma plot_vars_vs_target_any_run (data : DataFrame) (figs : list Figure)
    (shows : nat) (var_target : string) (n_cols : Z) (show : bool) :
  1 <= n_cols ->
  exists (res : Result FigRef) (fg : Figure) (sh : nat),
    call (plot_vars_vs_target var_target n_cols show) data figs shows
    = (res, mkWorld data (figs ++ [fg]) sh)
    /\ fig_size fg = (20, 5 * grid_rows data n_cols)
    /\ cut_short (grid_rows data n_cols) n_cols 0
         (enum_map (relation_panel data var_target (grid_rows data n_cols) n_cols)
            0 (but_last data))
         (fig_axes fg)
    /\ (forall fig, res = Ok fig ->
          fig = length figs
          /\ fig_axes fg
             = enum_map
                 (relation_panel data var_target (grid_rows data n_cols) n_cols)
                 0 (but_last data)
          /\ fig_tight fg = true).
Proof.
  intros Hn. unfold call, plot_vars_vs_target.
  unfold bind at 1. unfold columns at 1. cbn [w_frame].
  unfold bind at 1. rewrite floordiv_run by lia. rewrite length_map.
  change (Z.of_nat (length data) / n_cols + 1) with (grid_rows data n_cols).
  cbv zeta.
  unfold bind at 1. rewrite plt_figure_run by exact Hn.
  unfold bind at 1. unfold columns at 1. cbn [w_frame].
  rewrite but_last_map.
  destruct (plot_vars_vs_target_loop_any data figs shows var_target
              (grid_rows data n_cols) n_cols (but_last data) 0
              (mkFigure (20, 5 * grid_rows data n_cols) [] false)
              ltac:(auto using elem_of_but_last))
    as (res & axes & E & Hcut & Hok).
  unfold bind at 1. rewrite E. cbn [fig_size fig_axes fig_tight app].
  destruct res as [[]|e].
  - rewrite (Hok eq_refl). unfold bind at 1. rewrite tight_layout_run.
    destruct (layout_outcome _) as [e|].
    + eexists _, _, _. split; [reflexivity|]. split; [reflexivity|].
      split; [apply cut_short_all | discriminate].
    + cbn [fig_size fig_axes fig_tight].
      destruct show; (eexists _, _, _; split; [reflexivity|];
        split; [reflexivity|]; split; [apply cut_short_all|];
        intros fig Hfig; injection Hfig as <-; repeat split; reflexivity).
  - eexists _, _, _. split; [reflexivity|]. split; [reflexivity|].
    split; [exact Hcut | discriminate].
Qed.

End Calls.

(** The library that raises nowhere accepts every run. *)
Lemma lenient_accepts_distributions (data : DataFrame) (n_cols : Z) :
  @distributions_accepted lenient data n_cols.
Proof.
  split; [intros k c _; reflexivity|].
  unfold layout_outcome. cbn [fig_axes fig_size fst snd lenient layout_error].
  destruct (enum_map _ 0 data); [|reflexivity].
  destruct (small_size _); reflexivity.
Qed.

Lemma lenient_accepts_relations (data : DataFrame) (var_target : string)
    (n_cols : Z) :
  @relations_accepted lenient data var_target n_cols.
Proof.
  split.
  - intros k c _. unfold relation_turn_error. cbn [lenient subplot_error seaborn_error].
    destruct (relation_artist data var_target c); reflexivity.
  - unfold layout_outcome. cbn [fig_axes fig_size fst snd lenient layout_error].
    destruct (enum_map _ 0 (but_last data)); [|reflexivity].
    destruct (small_size _); reflexivity.
Qed.

(** ** What a computation leaves alone *)

Section Keeps.
Context {X : Type} (f : World -> X).

Lemma keeps_ret {A : Type} (a : A) : keeps f (ret a).
Proof. intros w. reflexivity. Qed.

Lemma keeps_raise {A : Type} (e : Exn) : keeps f (@raise World A e).
Proof. intros w. reflexivity. Qed.

Lemma keeps_bind {A B : Type} (m : Py A) (k : A -> Py B) :
  keeps f m -> (forall a, keeps f (k a)) -> keeps f (bind m k).
Proof.
  intros Hm Hk w. unfold bind. specialize (Hm w).
  destruct (m w) as [[a|e] w1]; cbn [snd] in *.
  - rewrite (Hk a w1). exact Hm.
  - exact Hm.
Qed.

Lemma keeps_if {A : Type} (b : bool) (m1 m2 : Py A) :
  keeps f m1 -> keeps f m2 -> keeps f (if b then m1 else m2).
Proof. destruct b; auto. Qed.

Lemma keeps_for_enumerate {A : Type} (body : Z -> A -> Py unit) :
  (forall i x, keeps f (body i x)) ->
  forall xs i, keeps f (for_enumerate i xs body).
Proof.
  intros Hb xs. induction xs as [|x xs IH]; intros i; cbn [for_enumerate].
  - apply keeps_ret.
  - apply keeps_bind; [apply Hb | intros _; apply IH].
Qed.

Lemma keeps_floordiv (a b : Z) : keeps f (floordiv a b).
Proof. unfold floordiv. apply keeps_if; [apply keeps_raise | apply keeps_ret]. Qed.

Lemma keeps_columns : keeps f columns.
Proof. intros w. reflexivity. Qed.

Lemma keeps_getitem (var : string) : keeps f (getitem var).
Proof.
  intros w. unfold getitem.
  destruct (filter _ (w_frame w)) as [|c [|c' cs]]; reflexivity.
Qed.

Lemma keeps_dtype (sel : Selection) : keeps f (dtype sel).
Proof.
  destruct sel; [apply keeps_ret|]. unfold dtype.
  apply keeps_if; apply keeps_raise.
Qed.
End Keeps.

Section DrawingOnly.
Context {L : Library}.

Lemma drawing_only_bind {A B : Type} (m : Py A) (k : A -> Py B) :
  drawing_only m -> (forall a, drawing_only (k a)) -> drawing_only (bind m k).
Proof.
  intros [H1 H2] Hk. split; apply keeps_bind; auto; intros a; apply Hk.
Qed.

Lemma drawing_only_pure {A : Type} (m : Py A) :
  (forall X (f : World -> X), keeps f m) -> drawing_only m.
Proof. intros H. split; apply H. Qed.

Lemma drawing_only_on_figure (fig : FigRef) (g : Figure -> Figure) :
  drawing_only (on_figure fig g).
Proof. split; intros w; reflexivity. Qed.

Lemma drawing_only_add_subplot (fig : FigRef) (nrows ncols index : Z) :
  drawing_only (add_subplot fig nrows ncols index).
Proof.
  split; intros w; unfold add_subplot;
    destruct (subplot_error nrows ncols index); reflexivity.
Qed.

Lemma drawing_only_plt_figure (size : Z * Z) : drawing_only (plt_figure size).
Proof.
  split; intros w; unfold plt_figure; destruct (figure_outcome size); reflexivity.
Qed.

Lemma drawing_only_draw (a : Artist) (ax : AxRef) : drawing_only (draw a ax).
Proof.
  split; intros w; unfold draw;
    destruct (match axes_at ax w with Some x => seaborn_error x a | None => None end);
    reflexivity.
Qed.

Lemma drawing_only_scatterplot (x y : string) (alpha : Q) (ax : AxRef) :
  drawing_only (sns_scatterplot x y alpha ax).
Proof.
  split; intros w; unfold sns_scatterplot;
    apply (drawing_only_draw (Scatterplot x y (w_frame w) alpha) ax).
Qed.

Lemma drawing_only_violinplot (x y : string) (ax : AxRef) :
  drawing_only (sns_violinplot x y ax).
Proof.
  split; intros w; unfold sns_violinplot;
    apply (drawing_only_draw (Violinplot x y (w_frame w)) ax).
Qed.

Lemma drawing_only_tight_layout (fig : FigRef) : drawing_only (tight_layout fig).
Proof.
  split; intros w; unfold tight_layout;
    destruct (match w_figures w !! fig with
              | Some fg => layout_outcome fg
              | None => None
              end); reflexivity.
Qed.

Lemma drawing_only_for_enumerate {A : Type} (body : Z -> A -> Py unit) :
  (forall i x, drawing_only (body i x)) ->
  forall xs i, drawing_only (for_enumerate i xs body).
Proof.
  intros Hb xs i. split; apply keeps_for_enumerate; intros; apply Hb.
Qed.

Ltac drawing_only_step :=
  first
    [ apply drawing_only_bind; [| intros ? ]
    | apply drawing_only_on_figure
    | apply drawing_only_add_subplot
    | apply drawing_only_plt_figure
    | apply drawing_only_draw
    | apply drawing_only_scatterplot
    | apply drawing_only_violinplot
    | apply drawing_only_pure; intros ? ?;
      first [ apply keeps_ret | apply keeps_raise | apply keeps_floordiv
            | apply keeps_columns | apply keeps_getitem | apply keeps_dtype ]
    | match goal with
      | |- drawing_only (if ?b then _ else _) => destruct b
      end ].

Ltac drawing_only_tac :=
  unfold sns_distplot, sns_countplot, set_title, set_xlabel, set_ylabel,
    rotate_xticklabels, on_axes;
  repeat drawing_only_step.

Lemma drawing_only_distributions_body (fig : FigRef) (n_rows n_cols i : Z)
    (var : string) :
  drawing_only (plot_distributions_body fig n_rows n_cols i var).
Proof. unfold plot_distributions_body. drawing_only_tac. Qed.

Lemma drawing_only_vars_vs_target_body (fig : FigRef) (var_target : string)
    (n_rows n_cols i : Z) (var : string) :
  drawing_only (plot_vars_vs_target_body fig var_target n_rows n_cols i var).
Proof. unfold plot_vars_vs_target_body. drawing_only_tac. Qed.

(** ** The [show] flag and the DataFrame *)

Ltac keeps_plotter body_lemma :=
  apply keeps_bind; [apply keeps_columns | intros ?];
  apply keeps_bind; [apply keeps_floordiv | intros ?]; cbv zeta;
  apply keeps_bind; [apply drawing_only_plt_figure | intros ?];
  apply keeps_bind; [apply keeps_columns | intros ?];
  apply keeps_bind;
    [apply keeps_for_enumerate; intros; apply body_lemma | intros _];
  apply keeps_bind; [apply drawing_only_tight_layout | intros _];
  apply keeps_bind;
    [ first
        [ apply keeps_ret
        | match goal with
          | |- keeps _ (if ?b then _ else _) =>
              destruct b; [intros ?; reflexivity | apply keeps_ret]
          end ]
    | intros _; apply keeps_ret ].

Lemma plot_distributions_keeps_frame (n_cols : Z) (show : bool) :
  keeps w_frame (plot_distributions n_cols show).
Proof.
  unfold plot_distributions.
  keeps_plotter drawing_only_distributions_body.
Qed.

Lemma plot_vars_vs_target_keeps_frame (var_target : string) (n_cols : Z)
    (show : bool) :
  keeps w_frame (plot_vars_vs_target var_target n_cols show).
Proof.
  unfold plot_vars_vs_target.
  keeps_plotter drawing_only_vars_vs_target_body.
Qed.

Lemma plot_distributions_quiet (n_cols : Z) :
  keeps w_shows (plot_distributions n_cols false).
Proof.
  unfold plot_distributions.
  keeps_plotter drawing_only_distributions_body.
Qed.

Lemma plot_vars_vs_target_quiet (var_target : string) (n_cols : Z) :
  keeps w_shows (plot_vars_vs_target var_target n_cols false).
Proof.
  unfold plot_vars_vs_target.
  keeps_plotter drawing_only_vars_vs_target_body.
Qed.

Lemma plot_distributions_show (n_cols : Z) (w : World) :
  plot_distributions n_cols true w
  = then_shown (plot_distributions n_cols false w).
Proof.
  unfold plot_distributions, then_shown, bind, columns, plt_show, ret.
  cbn [w_frame w_figures w_shows].
  destruct (floordiv _ _ _) as [[q|e] w1]; [|reflexivity].
  destruct (plt_figure _ _) as [[fig|e] w2]; [|reflexivity].
  destruct (for_enumerate _ _ _ _) as [[[]|e] w3]; [|reflexivity].
  destruct (tight_layout _ _) as [[[]|e] w4]; reflexivity.
Qed.

Lemma plot_vars_vs_target_show (var_target : string) (n_cols : Z) (w : World) :
  plot_vars_vs_target var_target n_cols true w
  = then_shown (plot_vars_vs_target var_target n_cols false w).
Proof.
  unfold plot_vars_vs_target, then_shown, bind, columns, plt_show, ret.
  cbn [w_frame w_figures w_shows].
  destruct (floordiv _ _ _) as [[q|e] w1]; [|reflexivity].
  destruct (plt_figure _ _) as [[fig|e] w2]; [|reflexivity].
  destruct (for_enumerate _ _ _ _) as [[[]|e] w3]; [|reflexivity].
  destruct (tight_layout _ _) as [[[]|e] w4]; reflexivity.
Qed.

End DrawingOnly.

(** ** The shape of the panels *)

Lemma distribution_panel_slot (n_rows n_cols i : Z) (c : Column) :
  ax_nrows (distribution_panel n_rows n_cols i c) = n_rows
  /\ ax_ncols (distribution_panel n_rows n_cols i c) = n_cols
  /\ ax_index (distribution_panel n_rows n_cols i c) = i + 1.
Proof.
  unfold distribution_panel.
  destruct (in_int64_float64 (col_dtype c)); cbn; auto.
Qed.

Lemma relation_panel_slot (data : DataFrame) (var_target : string)
    (n_rows n_cols i : Z) (c : Column) :
  ax_nrows (relation_panel data var_target n_rows n_cols i c) = n_rows
  /\ ax_ncols (relation_panel data var_target n_rows n_cols i c) = n_cols
  /\ ax_index (relation_panel data var_target n_rows n_cols i c) = i + 1.
Proof.
  unfold relation_panel.
  destruct (in_int64_float64 (col_dtype c)); [cbn; auto|].
  destruct (is_category (col_dtype c)); cbn; auto.
Qed.

(** Of the Axes a possibly interrupted loop leaves: the one at
    position [k] sits at index [k + 1] of the computed grid, and there
    are at most as many as the complete run has panels. *)
Lemma cut_short_slots (n_rows n_cols : Z) (panels axes : list Axes) :
  (forall (k : nat) (p : Axes),
     panels !! k = Some p ->
     ax_nrows p = n_rows /\ ax_ncols p = n_cols /\ ax_index p = Z.of_nat k + 1) ->
  cut_short n_rows n_cols 0 panels axes ->
  (length axes <= length panels)%nat
  /\ forall (k : nat) (a : Axes),
       axes !! k = Some a ->
       ax_nrows a = n_rows /\ ax_ncols a = n_cols /\ ax_index a = Z.of_nat k + 1.
Proof.
  intros Hp (m & Hm & [-> | [Hlt ->]]).
  - split; [rewrite length_take; lia|].
    intros k a Hk. apply lookup_take_Some in Hk as [Hk _]. apply Hp. exact Hk.
  - split; [rewrite length_app, length_take; cbn; lia|].
    intros k a Hk. apply lookup_app_Some in Hk as [Hk | [Hge Hk]].
    + apply lookup_take_Some in Hk as [Hk _]. apply Hp. exact Hk.
    + rewrite length_take in Hge, Hk.
      replace (m `min` length panels)%nat with m in * by lia.
      destruct (k - m)%nat as [|j] eqn:E; [|destruct j; discriminate Hk].
      injection Hk as <-. cbn [new_axes ax_nrows ax_ncols ax_index].
      repeat split; lia.
Qed.

Lemma distribution_panels_slots (n_rows n_cols : Z) (cs : list Column) :
  forall (k : nat) (p : Axes),
    enum_map (distribution_panel n_rows n_cols) 0 cs !! k = Some p ->
    ax_nrows p = n_rows /\ ax_ncols p = n_cols /\ ax_index p = Z.of_nat k + 1.
Proof.
  intros k p Hk. apply enum_map_lookup_inv in Hk as (c & _ & ->).
  rewrite Z.add_0_l. apply distribution_panel_slot.
Qed.

Lemma relation_panels_slots (data : DataFrame) (var_target : string)
    (n_rows n_cols : Z) (cs : list Column) :
  forall (k : nat) (p : Axes),
    enum_map (relation_panel data var_target n_rows n_cols) 0 cs !! k = Some p ->
    ax_nrows p = n_rows /\ ax_ncols p = n_cols /\ ax_index p = Z.of_nat k + 1.
Proof.
  intros k p Hk. apply enum_map_lookup_inv in Hk as (c & _ & ->).
  rewrite Z.add_0_l. apply relation_panel_slot.
Qed.

Lemma in_int64_float64_iff (d : string) :
  in_int64_float64 d = true <-> d = "int64" \/ d = "float64".
Proof.
  unfold in_int64_float64. rewrite orb_true_iff, !String.eqb_eq. reflexivity.
Qed.

Lemma in_int64_float64_false (d : string) :
  d <> "int64" -> d <> "float64" -> in_int64_float64 d = false.
Proof.
  intros N1 N2. destruct (in_int64_float64 d) eqn:E; [|reflexivity].
  apply in_int64_float64_iff in E as [E | E]; contradiction.
Qed.

Ltac labels_differ :=
  repeat (apply NoDup_cons; split;
          [ intros H; repeat (apply elem_of_cons in H as [H | H]; [discriminate H|]);
            inversion H | ]);
  apply NoDup_nil; exact I.

Lemma example_frame_unique : unique_labels example_frame.
Proof. unfold unique_labels, example_frame. cbn [map col_name]. labels_differ. Qed.

Lemma target_first_frame_unique : unique_labels target_first_frame.
Proof. unfold unique_labels, target_first_frame. cbn [map col_name]. labels_differ. Qed.

Lemma narrow_frame_unique : unique_labels narrow_frame.
Proof. unfold unique_labels, narrow_frame. cbn [map col_name]. labels_differ. Qed.

Lemma twin_frame_repeats : ~ unique_labels twin_frame.
Proof.
  unfold unique_labels, twin_frame. cbn [map col_name]. intros H.
  apply NoDup_cons in H as [_ H]. apply NoDup_cons in H as [H _].
  apply H. left.
Qed.

Lemma cut_short_lookup (n_rows n_cols : Z) (panels axes : list Axes) (k : nat)
    (a : Axes) :
  cut_short n_rows n_cols 0 panels axes ->
  axes !! k = Some a ->
  exists p, panels !! k = Some p
            /\ (a = p \/ a = new_axes n_rows n_cols (Z.of_nat k + 1)).
Proof.
  intros (m & Hm & [-> | [Hlt ->]]) Hk.
  - apply lookup_take_Some in Hk as [Hk _]. exists a. split; [exact Hk | left; reflexivity].
  - apply lookup_app_Some in Hk as [Hk | [Hge Hk]].
    + apply lookup_take_Some in Hk as [Hk _].
      exists a. split; [exact Hk | left; reflexivity].
    + rewrite length_take in Hge, Hk.
      replace (m `min` length panels)%nat with m in * by lia.
      destruct (k - m)%nat as [|j] eqn:E; [|destruct j; discriminate Hk].
      injection Hk as <-. assert (k = m) by lia. subst k.
      destruct (lookup_lt_is_Some_2 panels m Hlt) as [p Hp].
      exists p. split; [exact Hp|]. right. rewrite Z.add_0_l. reflexivity.
Qed.

(** * The claims *)

(** C2: for every column count and every [n_cols >= 1], both plotters
    compute [n_rows = floor(column count / n_cols) + 1] (ten columns in
    rows of five give three rows, not two) and create the figure with
    width 20 and height [5 * n_rows]; every subplot they add to it lies
    on the [n_rows] by [n_cols] grid.  This holds of the figure the
    call leaves in pyplot's table whether the call returns or a later
    step raises. *)
Theorem C2_grid_layout {L : Library} (data : DataFrame) (figs : list Figure)
    (shows : nat) (var_target : string) (n_cols : Z) (show : bool) :
  1 <= n_cols ->
  let column_count := Z.of_nat (length data) in
  let row_count := column_count / n_cols + 1 in
  (row_count - 1) * n_cols <= column_count < row_count * n_cols
  /\ (column_count = 10 -> n_cols = 5 -> row_count = 3)
  /\ (exists res fg sh,
        call (plot_distributions n_cols show) data figs shows
        = (res, mkWorld data (figs ++ [fg]) sh)
        /\ fig_size fg = (20, 5 * row_count)
        /\ forall a, a ∈ fig_axes fg ->
             ax_nrows a = row_count /\ ax_ncols a = n_cols)
  /\ (exists res fg sh,
        call (plot_vars_vs_target var_target n_cols show) data figs shows
        = (res, mkWorld data (figs ++ [fg]) sh)
        /\ fig_size fg = (20, 5 * row_count)
        /\ forall a, a ∈ fig_axes fg ->
             ax_nrows a = row_count /\ ax_ncols a = n_cols).
Proof.
  intros Hn column_count row_count.
  split; [apply floor_plus_one; exact Hn|].
  split; [intros Hc ->; subst row_count; rewrite Hc; reflexivity|].
  split.
  - destruct (plot_distributions_any_run data figs shows n_cols show Hn)
      as (res & fg & sh & E & Hsize & Hcut & _).
    exists res, fg, sh. split; [exact E|]. split; [exact Hsize|].
    intros a Ha. apply list_elem_of_lookup in Ha as (k & Hk).
    destruct (cut_short_slots _ _ _ _
                (distribution_panels_slots (grid_rows data n_cols) n_cols data) Hcut)
      as [_ Hslots].
    destruct (Hslots k a Hk) as (H1 & H2 & _). split; assumption.
  - destruct (plot_vars_vs_target_any_run data figs shows var_target n_cols show Hn)
      as (res & fg & sh & E & Hsize & Hcut & _).
    exists res, fg, sh. split; [exact E|]. split; [exact Hsize|].
    intros a Ha. apply list_elem_of_lookup in Ha as (k & Hk).
    destruct (cut_short_slots _ _ _ _
                (relation_panels_slots data var_target (grid_rows data n_cols)
                   n_cols (but_last data)) Hcut)
      as [_ Hslots].
    destruct (Hslots k a Hk) as (H1 & H2 & _). split; assumption.
Qed.

Lemma C2_grid_layout_witness :
  1 <= 5
  /\ exists res fg sh,
       call (plot_distributions (L := lenient) 5 false) example_frame [] 0
       = (res, mkWorld example_frame [fg] sh)
       /\ fig_size fg = (20, 5).
Proof.
  split; [lia|].
  destruct (C2_grid_layout (L := lenient) example_frame [] 0 "Target" 5 false
              ltac:(lia))
    as (_ & _ & (res & fg & sh & H1 & H2 & _) & _).
  exists res, fg, sh. split; [exact H1 | exact H2].
Defined.

(** C5: with [n_cols = 0] both plotters raise ZeroDivisionError at the
    row computation, for every dataset; no default is substituted and
    nothing has been created or shown when the exception leaves. *)
Theorem C5_zero_n_cols_raises {L : Library} (data : DataFrame)
    (figs : list Figure) (shows : nat) (var_target : string) (show : bool) :
  call (plot_distributions 0 show) data figs shows
  = (Raise ZeroDivisionError, mkWorld data figs shows)
  /\ call (plot_vars_vs_target var_target 0 show) data figs shows
     = (Raise ZeroDivisionError, mkWorld data figs shows).
Proof.
  split; reflexivity.
Qed.

(** C7: on a dataset without columns [plot_distributions] does not
    raise (whatever the non-zero [n_cols]): it computes one row, creates
    a 20 by 5 figure, adds no subplot to it and returns it. *)
Theorem C7_empty_dataset {L : Library} (figs : list Figure) (shows : nat)
    (n_cols : Z) (show : bool) :
  n_cols <> 0 ->
  grid_rows [] n_cols = 1
  /\ call (plot_distributions n_cols show) [] figs shows
     = (Ok (length figs),
        mkWorld [] (figs ++ [mkFigure (20, 5) [] true])
          (if show then S shows else shows)).
Proof.
  intros Hn.
  assert (Hr : grid_rows [] n_cols = 1).
  { unfold grid_rows. cbn [length Z.of_nat]. rewrite Z.div_0_l by exact Hn.
    reflexivity. }
  split; [exact Hr|].
  unfold call, plot_distributions.
  unfold bind at 1. unfold columns at 1. cbn [w_frame map length Z.of_nat].
  unfold bind at 1. rewrite floordiv_run by exact Hn.
  rewrite Z.div_0_l by exact Hn. cbv zeta.
  change (5 * (0 + 1)) with 5.
  unfold bind at 1. unfold plt_figure, figure_outcome.
  cbn [fst snd w_frame w_figures w_shows].
  change ((0 <? 20)%Z && (0 <? 5)%Z)%bool with true. cbv iota.
  unfold bind at 1. unfold columns at 1. cbn [w_frame map for_enumerate].
  unfold bind at 1. unfold ret at 1.
  unfold bind at 1. unfold tight_layout. cbn [w_figures].
  rewrite lookup_at_end. unfold layout_outcome. cbn [fig_axes fig_size].
  change (small_size (20, 5)) with true. cbv iota.
  unfold on_figure. cbn [w_frame w_figures w_shows]. rewrite alter_at_end.
  cbn [fig_size fig_axes]. destruct show; reflexivity.
Qed.

Lemma C7_empty_dataset_witness :
  5 <> 0
  /\ call (plot_distributions (L := lenient) 5 false) [] [] 0
     = (Ok 0%nat, mkWorld [] [mkFigure (20, 5) [] true] 0).
Proof.
  split; [lia|].
  exact (proj2 (C7_empty_dataset (L := lenient) [] 0 5 false ltac:(lia))).
Defined.

(** C1: [plot_vars_vs_target] visits the columns of the dataset except
    the last by position, in order, whatever [var_target] is.  With the
    dataset written [cols ++ [last_col]]: on every run the Axes it
    leaves are at indices 1, 2, ... and there are at most as many as
    [cols] has columns, none for [last_col]; when the libraries raise
    at none of its calls it returns with one panel per column of
    [cols], in order.  On [numeric_a, categorical_b, Target] that is a
    scatter plot and then a violin plot; with the target moved to the
    front it is still the column in last place that is left out. *)
Theorem C1_last_column_excluded_by_position {L : Library} (cols : list Column)
    (last_col : Column) (figs : list Figure) (shows : nat)
    (var_target : string) (n_cols : Z) (show : bool) :
  1 <= n_cols ->
  let data := cols ++ [last_col] in
  (exists res fg sh,
     call (plot_vars_vs_target var_target n_cols show) data figs shows
     = (res, mkWorld data (figs ++ [fg]) sh)
     /\ (length (fig_axes fg) <= length cols)%nat
     /\ forall (k : nat) (a : Axes),
          fig_axes fg !! k = Some a -> ax_index a = Z.of_nat k + 1)
  /\ (unique_labels data -> relations_accepted data var_target n_cols ->
      exists fg,
        call (plot_vars_vs_target var_target n_cols show) data figs shows
        = (Ok (length figs),
           mkWorld data (figs ++ [fg]) (if show then S shows else shows))
        /\ length (fig_axes fg) = length cols
        /\ fig_axes fg
           = enum_map (relation_panel data var_target (grid_rows data n_cols) n_cols)
               0 cols)
  /\ (relations_accepted example_frame "Target" 5 ->
      exists fg,
        call (plot_vars_vs_target "Target" 5 false) example_frame [] 0
        = (Ok 0%nat, mkWorld example_frame [fg] 0)
        /\ map ax_artists (fig_axes fg)
           = [ [Scatterplot "numeric_a" "Target" example_frame (3 # 10)%Q];
               [Violinplot "categorical_b" "Target" example_frame] ])
  /\ (relations_accepted target_first_frame "Target" 5 ->
      exists fg,
        call (plot_vars_vs_target "Target" 5 false) target_first_frame [] 0
        = (Ok 0%nat, mkWorld target_first_frame [fg] 0)
        /\ map ax_artists (fig_axes fg)
           = [ [Scatterplot "Target" "Target" target_first_frame (3 # 10)%Q];
               [Scatterplot "numeric_a" "Target" target_first_frame (3 # 10)%Q] ]).
Proof.
  intros Hn data. split; [|split; [|split]].
  - destruct (plot_vars_vs_target_any_run data figs shows var_target n_cols show Hn)
      as (res & fg & sh & E & _ & Hcut & _).
    exists res, fg, sh. split; [exact E|].
    destruct (cut_short_slots _ _ _ _
                (relation_panels_slots data var_target (grid_rows data n_cols)
                   n_cols (but_last data)) Hcut)
      as [Hlen Hslots].
    split.
    + rewrite enum_map_length in Hlen. subst data.
      rewrite but_last_snoc in Hlen. exact Hlen.
    + intros k a Hk. apply (Hslots k a Hk).
  - intros Hu Hacc. eexists.
    split; [apply plot_vars_vs_target_run; assumption|].
    cbn [fig_axes]. subst data. rewrite but_last_snoc.
    split; [apply enum_map_length | reflexivity].
  - intros Hacc. eexists.
    split; [apply (plot_vars_vs_target_run example_frame [] 0 "Target" 5 false);
            [lia | exact example_frame_unique | exact Hacc]|].
    reflexivity.
  - intros Hacc. eexists.
    split; [apply (plot_vars_vs_target_run target_first_frame [] 0 "Target" 5 false);
            [lia | exact target_first_frame_unique | exact Hacc]|].
    reflexivity.
Qed.

Lemma C1_last_column_excluded_by_position_witness :
  1 <= 5 /\ unique_labels example_frame
  /\ @relations_accepted lenient example_frame "Target" 5
  /\ exists fg,
       call (plot_vars_vs_target (L := lenient) "Target" 5 true) example_frame [] 0
       = (Ok 0%nat, mkWorld example_frame [fg] 1)
       /\ length (fig_axes fg) = 2%nat.
Proof.
  split; [lia|]. split; [exact example_frame_unique|].
  split; [apply lenient_accepts_relations|].
  destruct (C1_last_column_excluded_by_position (L := lenient)
              [ mkColumn "numeric_a" "float64" [VFloat (1 # 2); VFloat (3 # 2); VMissing];
                mkColumn "categorical_b" "category" [VStr "x"; VStr "y"; VStr "x"] ]
              (mkColumn "Target" "int64" [VInt 0; VInt 1; VInt 1])
              [] 0 "Target" 5 true ltac:(lia))
    as (_ & H & _).
  destruct (H example_frame_unique (lenient_accepts_relations example_frame "Target" 5))
    as (fg & H1 & H2 & _).
  exists fg. split; [exact H1 | exact H2].
Defined.

(** C4, as amended: in [plot_vars_vs_target] a column whose dtype is
    neither int64/float64 nor category does get a panel, an Axes added
    by [add_subplot] on which nothing is drawn and nothing is set.  On
    every run, an Axes whose column has such a dtype is as [add_subplot]
    created it, and the Axes of the column met at position [k] sits at
    index [k + 1] inside the grid, so the columns after a skipped one
    keep their cells; when the libraries raise at none of the calls,
    every visited column has its Axes. *)
Theorem C4_other_dtype_leaves_empty_cell {L : Library} (data : DataFrame)
    (figs : list Figure) (shows : nat) (var_target : string) (n_cols : Z)
    (show : bool) :
  1 <= n_cols ->
  (exists res fg sh,
     call (plot_vars_vs_target var_target n_cols show) data figs shows
     = (res, mkWorld data (figs ++ [fg]) sh)
     /\ forall (k : nat) (a : Axes) (c : Column),
          fig_axes fg !! k = Some a ->
          but_last data !! k = Some c ->
          ax_index a = Z.of_nat k + 1
          /\ 1 <= ax_index a <= ax_nrows a * ax_ncols a
          /\ (col_dtype c <> "int64" -> col_dtype c <> "float64" ->
              col_dtype c <> "category" ->
              a = new_axes (grid_rows data n_cols) n_cols (Z.of_nat k + 1)
              /\ ax_artists a = []))
  /\ (unique_labels data -> relations_accepted data var_target n_cols ->
      exists fg,
        call (plot_vars_vs_target var_target n_cols show) data figs shows
        = (Ok (length figs),
           mkWorld data (figs ++ [fg]) (if show then S shows else shows))
        /\ length (fig_axes fg) = length (but_last data)
        /\ forall (k : nat) (c : Column),
             but_last data !! k = Some c ->
             col_dtype c <> "int64" -> col_dtype c <> "float64" ->
             col_dtype c <> "category" ->
             fig_axes fg !! k
             = Some (new_axes (grid_rows data n_cols) n_cols (Z.of_nat k + 1))).
Proof.
  intros Hn.
  assert (Hother : forall k c,
            col_dtype c <> "int64" -> col_dtype c <> "float64" ->
            col_dtype c <> "category" ->
            relation_panel data var_target (grid_rows data n_cols) n_cols
              (0 + Z.of_nat k) c
            = new_axes (grid_rows data n_cols) n_cols (Z.of_nat k + 1)).
  { intros k c N1 N2 N3. unfold relation_panel, in_int64_float64, is_category.
    apply String.eqb_neq in N1, N2, N3. rewrite N1, N2, N3. cbn [orb].
    rewrite Z.add_0_l. reflexivity. }
  split.
  - destruct (plot_vars_vs_target_any_run data figs shows var_target n_cols show Hn)
      as (res & fg & sh & E & _ & Hcut & _).
    exists res, fg, sh. split; [exact E|].
    intros k a c Hk Hc.
    destruct (cut_short_slots _ _ _ _
                (relation_panels_slots data var_target (grid_rows data n_cols)
                   n_cols (but_last data)) Hcut)
      as [_ Hslots].
    destruct (Hslots k a Hk) as (H1 & H2 & H3).
    split; [exact H3|]. split.
    + rewrite H1, H2, H3.
      assert (k < length data)%nat.
      { apply lookup_lt_Some in Hc. rewrite but_last_length in Hc. lia. }
      pose proof (subplot_index_in_grid data n_cols k Hn ltac:(assumption)). lia.
    + intros N1 N2 N3.
      destruct (cut_short_lookup _ _ _ _ k a Hcut Hk) as (p & Hp & Ha).
      rewrite (enum_map_lookup _ 0 _ k c Hc) in Hp. injection Hp as <-.
      rewrite (Hother k c N1 N2 N3) in Ha.
      assert (Hblank : a = new_axes (grid_rows data n_cols) n_cols (Z.of_nat k + 1))
        by (destruct Ha; assumption).
      split; [exact Hblank | rewrite Hblank; reflexivity].
  - intros Hu Hacc. eexists.
    split; [apply plot_vars_vs_target_run; assumption|].
    cbn [fig_axes]. split; [apply enum_map_length|].
    intros k c Hc N1 N2 N3.
    rewrite (enum_map_lookup _ 0 _ k c Hc). f_equal. apply Hother; assumption.
Qed.

Lemma C4_other_dtype_leaves_empty_cell_witness :
  1 <= 2 /\ unique_labels narrow_frame
  /\ @relations_accepted lenient narrow_frame "Target" 2
  /\ exists fg,
       call (plot_vars_vs_target (L := lenient) "Target" 2 false) narrow_frame [] 0
       = (Ok 0%nat, mkWorld narrow_frame [fg] 0)
       /\ length (fig_axes fg) = 3%nat.
Proof.
  split; [lia|]. split; [exact narrow_frame_unique|].
  split; [apply lenient_accepts_relations|].
  destruct (C4_other_dtype_leaves_empty_cell (L := lenient) narrow_frame [] 0
              "Target" 2 false ltac:(lia))
    as (_ & H).
  destruct (H narrow_frame_unique (lenient_accepts_relations narrow_frame "Target" 2))
    as (fg & H1 & H2 & _).
  exists fg. split; [exact H1 | exact H2].
Defined.

(** C4 as stated fails: on a dataset whose visited columns have dtypes
    int32, float32 and object, none of them numeric or categorical for
    the code, the figure returned has three panels, one empty Axes per
    such column, where the claim has none rendered. *)
Lemma C4_counterexample :
  exists fg,
    call (plot_vars_vs_target (L := lenient) "Target" 2 false) narrow_frame [] 0
    = (Ok 0%nat, mkWorld narrow_frame [fg] 0)
    /\ fig_axes fg = [new_axes 3 2 1; new_axes 3 2 2; new_axes 3 2 3]
    /\ ~ (length (fig_axes fg) = 0%nat).
Proof.
  eexists. split; [vm_compute; reflexivity|].
  split; [reflexivity | discriminate].
Qed.

(** C9: both plotters take a column for numeric exactly when its dtype
    is int64 or float64.  In a run during which the libraries raise at
    no call, [plot_distributions] draws the histogram for those columns
    and the count plot for every other dtype; [plot_vars_vs_target]
    draws the scatter plot for those, the violin plot for dtype
    category, and nothing for the rest.  int32 and float32 columns are
    among the rest. *)
Theorem C9_numeric_is_int64_or_float64 {L : Library} (data : DataFrame)
    (figs : list Figure) (shows : nat) (var_target : string) (n_cols : Z)
    (show : bool) :
  1 <= n_cols -> unique_labels data ->
  (distributions_accepted data n_cols ->
   exists fg,
     call (plot_distributions n_cols show) data figs shows
     = (Ok (length figs),
        mkWorld data (figs ++ [fg]) (if show then S shows else shows))
     /\ forall (k : nat) (c : Column),
          data !! k = Some c ->
          exists a,
            fig_axes fg !! k = Some a
            /\ (col_dtype c = "int64" \/ col_dtype c = "float64" ->
                ax_artists a = [Distplot (SeriesSel c) 20 false])
            /\ (col_dtype c <> "int64" -> col_dtype c <> "float64" ->
                ax_artists a = [Countplot (SeriesSel c)]))
  /\ (relations_accepted data var_target n_cols ->
      exists fg,
        call (plot_vars_vs_target var_target n_cols show) data figs shows
        = (Ok (length figs),
           mkWorld data (figs ++ [fg]) (if show then S shows else shows))
        /\ forall (k : nat) (c : Column),
             but_last data !! k = Some c ->
             exists a,
               fig_axes fg !! k = Some a
               /\ (col_dtype c = "int64" \/ col_dtype c = "float64" ->
                   ax_artists a
                   = [Scatterplot (col_name c) var_target data (3 # 10)%Q])
               /\ (col_dtype c <> "int64" -> col_dtype c <> "float64" ->
                   col_dtype c = "category" ->
                   ax_artists a = [Violinplot (col_name c) var_target data])
               /\ (col_dtype c <> "int64" -> col_dtype c <> "float64" ->
                   col_dtype c <> "category" ->
                   ax_artists a = []))
  /\ (forall d, in_int64_float64 d = true <-> d = "int64" \/ d = "float64")
  /\ (distributions_accepted narrow_frame 2 ->
      exists fg,
        call (plot_distributions 2 false) narrow_frame [] 0
        = (Ok 0%nat, mkWorld narrow_frame [fg] 0)
        /\ map ax_artists (fig_axes fg)
           = [ [Countplot (SeriesSel (mkColumn "small" "int32" [VInt 1; VInt 2]))];
               [Countplot (SeriesSel (mkColumn "single" "float32"
                                        [VFloat (1 # 4); VFloat (3 # 4)]))];
               [Countplot (SeriesSel (mkColumn "text" "object" [VStr "a"; VStr "b"]))];
               [Distplot (SeriesSel (mkColumn "Target" "int64" [VInt 0; VInt 1]))
                  20 false] ])
  /\ (relations_accepted narrow_frame "Target" 2 ->
      exists fg,
        call (plot_vars_vs_target "Target" 2 false) narrow_frame [] 0
        = (Ok 0%nat, mkWorld narrow_frame [fg] 0)
        /\ map ax_artists (fig_axes fg) = [ []; []; [] ]).
Proof.
  intros Hn Hu. split; [|split; [|split; [|split]]].
  - intros Hacc. eexists. split; [apply plot_distributions_run; assumption|].
    cbn [fig_axes]. intros k c Hk.
    eexists. split; [apply enum_map_lookup; exact Hk|].
    unfold distribution_panel. split.
    + intros Hd. apply in_int64_float64_iff in Hd. rewrite Hd. reflexivity.
    + intros N1 N2. rewrite in_int64_float64_false by assumption. reflexivity.
  - intros Hacc. eexists. split; [apply plot_vars_vs_target_run; assumption|].
    cbn [fig_axes]. intros k c Hk.
    eexists. split; [apply enum_map_lookup; exact Hk|].
    unfold relation_panel. split; [|split].
    + intros Hd. apply in_int64_float64_iff in Hd. rewrite Hd. reflexivity.
    + intros N1 N2 E. rewrite in_int64_float64_false by assumption.
      unfold is_category. rewrite E. reflexivity.
    + intros N1 N2 N3. rewrite in_int64_float64_false by assumption.
      unfold is_category. apply String.eqb_neq in N3. rewrite N3. reflexivity.
  - exact in_int64_float64_iff.
  - intros Hacc. eexists.
    split; [apply (plot_distributions_run narrow_frame [] 0 2 false);
            [lia | exact narrow_frame_unique | exact Hacc]|].
    reflexivity.
  - intros Hacc. eexists.
    split; [apply (plot_vars_vs_target_run narrow_frame [] 0 "Target" 2 false);
            [lia | exact narrow_frame_unique | exact Hacc]|].
    reflexivity.
Qed.

Lemma C9_numeric_is_int64_or_float64_witness :
  1 <= 2 /\ unique_labels narrow_frame
  /\ @distributions_accepted lenient narrow_frame 2
  /\ exists fg a,
       call (plot_distributions (L := lenient) 2 true) narrow_frame [] 0
       = (Ok 0%nat, mkWorld narrow_frame [fg] 1)
       /\ fig_axes fg !! 0%nat = Some a
       /\ ax_artists a
          = [Countplot (SeriesSel (mkColumn "small" "int32" [VInt 1; VInt 2]))].
Proof.
  split; [lia|]. split; [exact narrow_frame_unique|].
  split; [apply lenient_accepts_distributions|].
  destruct (C9_numeric_is_int64_or_float64 (L := lenient) narrow_frame [] 0
              "Target" 2 true ltac:(lia) narrow_frame_unique)
    as (H & _).
  destruct (H (lenient_accepts_distributions narrow_frame 2)) as (fg & H1 & H2).
  destruct (H2 0%nat (mkColumn "small" "int32" [VInt 1; VInt 2]) eq_refl)
    as (a & Ha & _ & Hc).
  exists fg, a. split; [exact H1|]. split; [exact Ha|].
  apply Hc; cbn [col_dtype]; discriminate.
Defined.

(** C6: each plotter returns the figure it built whatever [show] is.
    With [show = False], [plt.show()] is not called, on any input,
    raising runs included; with [show = True] the run differs from
    that one by a single [plt.show()] just before returning, so the
    two return the same handle and leave the same figures.  When the
    libraries raise at none of the calls, the handle returned names the
    figure this call created, the same figure for both values of
    [show]. *)
Theorem C6_figure_returned_whatever_show {L : Library} (data : DataFrame)
    (figs : list Figure) (shows : nat) (var_target : string) (n_cols : Z) :
  w_shows (snd (call (plot_distributions n_cols false) data figs shows)) = shows
  /\ w_shows (snd (call (plot_vars_vs_target var_target n_cols false)
                     data figs shows)) = shows
  /\ call (plot_distributions n_cols true) data figs shows
     = then_shown (call (plot_distributions n_cols false) data figs shows)
  /\ call (plot_vars_vs_target var_target n_cols true) data figs shows
     = then_shown (call (plot_vars_vs_target var_target n_cols false)
                     data figs shows)
  /\ (1 <= n_cols -> unique_labels data ->
      (distributions_accepted data n_cols ->
       exists fg, forall show : bool,
         call (plot_distributions n_cols show) data figs shows
         = (Ok (length figs),
            mkWorld data (figs ++ [fg]) (if show then S shows else shows)))
      /\ (relations_accepted data var_target n_cols ->
          exists fg, forall show : bool,
            call (plot_vars_vs_target var_target n_cols show) data figs shows
            = (Ok (length figs),
               mkWorld data (figs ++ [fg]) (if show then S shows else shows)))).
Proof.
  split; [apply (plot_distributions_quiet n_cols)|].
  split; [apply (plot_vars_vs_target_quiet var_target n_cols)|].
  split; [apply plot_distributions_show|].
  split; [apply plot_vars_vs_target_show|].
  intros Hn Hu. split; intros Hacc.
  - eexists. intros show. apply plot_distributions_run; assumption.
  - eexists. intros show. apply plot_vars_vs_target_run; assumption.
Qed.

Lemma C6_figure_returned_whatever_show_witness :
  1 <= 5 /\ unique_labels example_frame
  /\ @distributions_accepted lenient example_frame 5
  /\ exists fg, forall show : bool,
       call (plot_distributions (L := lenient) 5 show) example_frame [] 0
       = (Ok 0%nat, mkWorld example_frame [fg] (if show then 1%nat else 0%nat)).
Proof.
  split; [lia|]. split; [exact example_frame_unique|].
  split; [apply lenient_accepts_distributions|].
  destruct (C6_figure_returned_whatever_show (L := lenient) example_frame [] 0
              "Target" 5)
    as (_ & _ & _ & _ & H).
  destruct (H ltac:(lia) example_frame_unique) as (Hd & _).
  destruct (Hd (lenient_accepts_distributions example_frame 5)) as (fg & Hfg).
  exists fg. exact Hfg.
Defined.

(** C10: neither plotter changes the DataFrame it is given: columns,
    their order, dtypes and values are after the call what they were
    before it, whether the call returns or raises. *)
Theorem C10_dataset_not_mutated {L : Library} (data : DataFrame)
    (figs : list Figure) (shows : nat) (var_target : string) (n_cols : Z)
    (show : bool) :
  w_frame (snd (call (plot_distributions n_cols show) data figs shows)) = data
  /\ w_frame (snd (call (plot_vars_vs_target var_target n_cols show)
                     data figs shows)) = data.
Proof.
  split.
  - apply (plot_distributions_keeps_frame n_cols show).
  - apply (plot_vars_vs_target_keeps_frame var_target n_cols show).
Qed.

(** ** The y-axis label of [plot_distributions] *)

(** On every column, what the loop draws and what the specification
    describes agree on the plot, the title, the x label and the tick
    rotation, and differ in the y label. *)
Lemma distribution_panel_against_spec (n_rows n_cols i : Z) (c : Column) :
  let drawn := distribution_panel n_rows n_cols i c in
  let described := spec_distribution_panel n_rows n_cols i c in
  ax_artists drawn = ax_artists described
  /\ ax_title drawn = ax_title described
  /\ ax_xlabel drawn = ax_xlabel described
  /\ ax_xtick_rotation drawn = ax_xtick_rotation described
  /\ ax_ylabel drawn = "Frecuency"
  /\ ax_ylabel described = "Frequency".
Proof.
  unfold distribution_panel, spec_distribution_panel.
  destruct (in_int64_float64 (col_dtype c)); cbn; repeat split; reflexivity.
Qed.

(** C3, at [plot_distributions(data, n_cols = 5, show = False)] on the
    example dataset, with libraries that raise at none of the calls:
    the numeric columns get a 20-bin histogram without density curve,
    the other column a count plot with tick labels turned by 90
    degrees, titles and x labels are as described, and the y label of
    every panel reads "Frecuency", which is not the "Frequency" of the
    description. *)
Theorem C3_ylabel_reads_Frecuency :
  exists fg,
    call (plot_distributions (L := lenient) 5 false) example_frame [] 0
    = (Ok 0%nat, mkWorld example_frame [fg] 0)
    /\ map ax_artists (fig_axes fg)
       = [ [Distplot
              (SeriesSel (mkColumn "numeric_a" "float64"
                            [VFloat (1 # 2); VFloat (3 # 2); VMissing]))
              20 false];
           [Countplot
              (SeriesSel (mkColumn "categorical_b" "category"
                            [VStr "x"; VStr "y"; VStr "x"]))];
           [Distplot
              (SeriesSel (mkColumn "Target" "int64" [VInt 0; VInt 1; VInt 1]))
              20 false] ]
    /\ map ax_title (fig_axes fg)
       = [ "numeric_a distribution"; "categorical_b distribution";
           "Target distribution" ]
    /\ map ax_xlabel (fig_axes fg) = [ "numeric_a"; ""; "Target" ]
    /\ map ax_xtick_rotation (fig_axes fg) = [ 0; 90; 0 ]
    /\ map ax_ylabel (fig_axes fg) = [ "Frecuency"; "Frecuency"; "Frecuency" ]
    /\ map ax_ylabel (enum_map (spec_distribution_panel 1 5) 0 example_frame)
       = [ "Frequency"; "Frequency"; "Frequency" ]
    /\ fig_axes fg <> enum_map (spec_distribution_panel 1 5) 0 example_frame.
Proof.
  eexists.
  split; [apply (plot_distributions_run (L := lenient) example_frame [] 0 5 false);
          [lia | exact example_frame_unique | apply lenient_accepts_distributions]|].
  repeat (split; [reflexivity|]).
  discriminate.
Qed.

(** ** [create_logger] *)

Section CreateLogger.
Context {os : Os}.

Lemma getLogger_run (name : string) (w : Logging) :
  getLogger name w
  = (Ok name,
     mkLogging (<[name := logger_of w name]> (lw_loggers w))
       (lw_handlers w) (lw_files w)).
Proof.
  unfold getLogger, logger_of.
  destruct (lw_loggers w !! name) as [l|] eqn:E; cbn [default].
  - rewrite insert_id by exact E. destruct w; reflexivity.
  - reflexivity.
Qed.

Lemma addHandler_fresh (name : string) (l : Logger) (ls : gmap string Logger)
    (hs : list Handler) (fs : gmap string string) (h : nat) :
  h ∉ lg_handlers l ->
  addHandler name h (mkLogging (<[name := l]> ls) hs fs)
  = (Ok tt,
     mkLogging (<[name := mkLogger (lg_level l) (lg_handlers l ++ [h])]> ls) hs fs).
Proof.
  intros Hh. unfold addHandler. cbn [lw_loggers lw_handlers lw_files].
  rewrite alter_insert_eq. rewrite bool_decide_eq_false_2 by exact Hh.
  reflexivity.
Qed.

Ltac run_logging :=
  cbn [lw_loggers lw_handlers lw_files lg_level lg_handlers
       String.eqb Ascii.eqb Bool.eqb];
  repeat (rewrite alter_at_end;
          cbn [lw_loggers lw_handlers lw_files h_kind h_level h_formatter]).

(** One call of [create_logger], in the two ways it can end: the file
    cannot be opened, and the exception leaves after the console
    handler was added; or the call returns. *)
Lemma create_logger_run (name : string) (stream file : bool)
    (file_name : string) (w : Logging) :
  handlers_allocated w ->
  let n := length (lw_handlers w) in
  let m := if stream then S n else n in
  let console :=
    mkHandler StreamHandler DEBUG (Some "%(asctime)s : %(levelname)s %(message)s") in
  let logfile :=
    mkHandler (FileHandler file_name "w") INFO
      (Some "%(asctime)s %(name)s %(lineno)d:%(levelname)s %(message)s") in
  create_logger name stream file file_name w
  = match (if file then open_error file_name "w" else None) with
    | Some e =>
        (Raise e,
         mkLogging
           (<[name :=
                mkLogger DEBUG
                  (lg_handlers (logger_of w name) ++ (if stream then [n] else []))]>
              (lw_loggers w))
           (lw_handlers w ++ (if stream then [console] else []))
           (lw_files w))
    | None =>
        (Ok name,
         mkLogging
           (<[name :=
                mkLogger DEBUG
                  (lg_handlers (logger_of w name)
                   ++ (if stream then [n] else []) ++ (if file then [m] else []))]>
              (lw_loggers w))
           (lw_handlers w
            ++ (if stream then [console] else [])
            ++ (if file then [logfile] else []))
           (if file then <[file_of file_name := ""]> (lw_files w) else lw_files w))
    end.
Proof.
  intros Hw n m console logfile.
  assert (Hold : forall h, h ∈ lg_handlers (logger_of w name) -> (h < n)%nat).
  { intros h Hh. unfold logger_of in Hh.
    destruct (lw_loggers w !! name) as [l|] eqn:E; cbn [default] in Hh.
    - exact (Hw name l E h Hh).
    - inversion Hh. }
  assert (Hn : n ∉ lg_handlers (logger_of w name)).
  { intros Hin. apply Hold in Hin. lia. }
  assert (Hm : m ∉ lg_handlers (logger_of w name) ++ (if stream then [n] else [])).
  { intros Hin. apply elem_of_app in Hin as [Hin | Hin].
    - apply Hold in Hin. subst m. destruct stream; lia.
    - subst m. destruct stream; [|inversion Hin].
      apply list_elem_of_singleton in Hin. lia. }
  unfold create_logger. unfold bind at 1. rewrite getLogger_run.
  unfold bind at 1. unfold logger_setLevel.
  cbn [lw_loggers lw_handlers lw_files]. rewrite alter_insert_eq.
  cbn [lg_handlers].
  destruct stream; destruct file;
    unfold bind, Formatter, new_StreamHandler, new_FileHandler, handler_setLevel,
      handler_setFormatter, open_file, ret;
    run_logging.
  - rewrite addHandler_fresh by exact Hn. run_logging.
    destruct (open_error file_name "w") as [e|]; [reflexivity|]. run_logging.
    rewrite length_app. cbn [length].
    replace (length (lw_handlers w) + 1)%nat with m by (subst m n; lia).
    rewrite addHandler_fresh by exact Hm.
    cbn [lg_level lg_handlers]. rewrite <- !app_assoc. reflexivity.
  - rewrite addHandler_fresh by exact Hn.
    cbn [lg_level lg_handlers]. rewrite !app_nil_r. reflexivity.
  - destruct (open_error file_name "w") as [e|].
    { cbn [app]. rewrite !app_nil_r. reflexivity. }
    run_logging.
    rewrite addHandler_fresh by (rewrite app_nil_r in Hm; exact Hm).
    cbn [lg_level lg_handlers app]. reflexivity.
  - cbn [app]. rewrite !app_nil_r. reflexivity.
Qed.

Lemma create_logger_allocated (name : string) (stream file : bool)
    (file_name : string) (w : Logging) :
  handlers_allocated w ->
  handlers_allocated (snd (create_logger name stream file file_name w)).
Proof.
  intros Hw. rewrite create_logger_run by exact Hw.
  assert (Hold : forall h, h ∈ lg_handlers (logger_of w name) ->
                           (h < length (lw_handlers w))%nat).
  { intros h Hh. unfold logger_of in Hh.
    destruct (lw_loggers w !! name) as [l|] eqn:E; cbn [default] in Hh.
    - exact (Hw name l E h Hh).
    - inversion Hh. }
  destruct (if file then open_error file_name "w" else None); cbn [snd];
    intros name' l' Hl h Hh; cbn [lw_loggers lw_handlers] in *;
    rewrite length_app;
    (destruct (decide (name = name')) as [<- | Hne];
     [ rewrite lookup_insert_eq in Hl; injection Hl as <-; cbn [lg_handlers] in Hh;
       apply elem_of_app in Hh as [Hh | Hh];
       [ apply Hold in Hh; lia
       | destruct stream, file; cbn [app length] in *;
         repeat (apply elem_of_cons in Hh as [-> | Hh]; [lia|]);
         inversion Hh ]
     | rewrite lookup_insert_ne in Hl by exact Hne;
       pose proof (Hw name' l' Hl h Hh); lia ]).
Qed.

End CreateLogger.

Lemma fresh_logging_allocated : handlers_allocated fresh_logging.
Proof.
  intros name l Hl. unfold fresh_logging in Hl. cbn [lw_loggers] in Hl.
  rewrite lookup_empty in Hl. discriminate Hl.
Qed.

Lemma busy_logging_allocated : handlers_allocated busy_logging.
Proof.
  intros name l Hl h Hh. unfold busy_logging in *. cbn [lw_loggers lw_handlers length] in *.
  destruct (decide (name = "utils")) as [-> | N1].
  - rewrite lookup_insert_eq in Hl. injection Hl as <-. cbn [lg_handlers] in Hh.
    apply list_elem_of_singleton in Hh. lia.
  - rewrite lookup_insert_ne in Hl by congruence.
    destruct (decide (name = "server")) as [-> | N2].
    + rewrite lookup_insert_eq in Hl. injection Hl as <-. cbn [lg_handlers] in Hh.
      apply elem_of_cons in Hh as [-> | Hh]; [lia|].
      apply list_elem_of_singleton in Hh. lia.
    + rewrite lookup_insert_ne in Hl by congruence.
      rewrite lookup_empty in Hl. discriminate Hl.
Qed.

(** C8: [create_logger] configures the logger that the process keeps
    under the module's name.  Called with both outputs on and a file
    that can be opened, it adds a console handler that passes records
    of level DEBUG and above and a file handler that passes records of
    level INFO and above, each with a format of its own, and opening
    the file empties whatever the path designated.  A second call
    reaches the same logger, adds two more handlers next to the first
    two, and empties the file again. *)
Theorem C8_create_logger {os : Os} (name file_name : string) (w : Logging) :
  handlers_allocated w ->
  open_error file_name "w" = None ->
  let n := length (lw_handlers w) in
  let fmt_stream := "%(asctime)s : %(levelname)s %(message)s" in
  let fmt_file := "%(asctime)s %(name)s %(lineno)d:%(levelname)s %(message)s" in
  let console := mkHandler StreamHandler DEBUG (Some fmt_stream) in
  let logfile := mkHandler (FileHandler file_name "w") INFO (Some fmt_file) in
  let once := create_logger name true true file_name w in
  let twice := create_logger name true true file_name (snd once) in
  fst once = Ok name
  /\ lw_loggers (snd once) !! name
     = Some (mkLogger DEBUG (lg_handlers (logger_of w name) ++ [n; S n]))
  /\ lw_handlers (snd once) = lw_handlers w ++ [console; logfile]
  /\ (forall levelno, handler_emits console levelno = true <-> DEBUG <= levelno)
  /\ (forall levelno, handler_emits logfile levelno = true <-> INFO <= levelno)
  /\ fmt_stream <> fmt_file
  /\ lw_files (snd once) !! file_of file_name = Some ""
  /\ fst twice = Ok name
  /\ lw_loggers (snd twice) !! name
     = Some (mkLogger DEBUG
               (lg_handlers (logger_of w name)
                ++ [n; S n; S (S n); S (S (S n))]))
  /\ lw_handlers (snd twice)
     = lw_handlers w ++ [console; logfile; console; logfile]
  /\ lw_files (snd twice) !! file_of file_name = Some "".
Proof.
  intros Hw Hopen n fmt_stream fmt_file console logfile once twice.
  pose proof (create_logger_allocated name true true file_name w Hw) as Hw1.
  pose proof (create_logger_run name true true file_name w Hw) as E1.
  pose proof (create_logger_run name true true file_name _ Hw1) as E2.
  cbv beta iota zeta in E1, E2. rewrite Hopen in E1, E2.
  fold once in E1, E2. fold twice in E2.
  assert (L1 : lw_loggers (snd once) !! name
               = Some (mkLogger DEBUG (lg_handlers (logger_of w name) ++ [n; S n]))).
  { rewrite E1. cbn [snd lw_loggers]. rewrite lookup_insert_eq. reflexivity. }
  assert (H1 : lw_handlers (snd once) = lw_handlers w ++ [console; logfile]).
  { rewrite E1. reflexivity. }
  split; [rewrite E1; reflexivity|].
  split; [exact L1|].
  split; [exact H1|].
  split; [intros levelno; unfold handler_emits; cbn [h_level console];
          apply Z.leb_le|].
  split; [intros levelno; unfold handler_emits; cbn [h_level logfile];
          apply Z.leb_le|].
  split; [discriminate|].
  split; [rewrite E1; cbn [snd lw_files]; apply lookup_insert_eq|].
  split; [rewrite E2; reflexivity|].
  split.
  - rewrite E2. cbn [snd lw_loggers]. rewrite lookup_insert_eq.
    unfold logger_of at 1. rewrite L1. cbn [from_option id lg_handlers].
    rewrite H1, length_app. cbn [length].
    rewrite <- !app_assoc. cbn [app].
    replace (length (lw_handlers w) + 2)%nat with (S (S n)) by (subst n; lia).
    reflexivity.
  - split.
    + rewrite E2. cbn [snd lw_handlers]. rewrite H1.
      rewrite <- !app_assoc. reflexivity.
    + rewrite E2. cbn [snd lw_files]. apply lookup_insert_eq.
Qed.

Lemma C8_create_logger_witness :
  handlers_allocated fresh_logging
  /\ @open_error flat_os "logging.log" "w" = None
  /\ fresh_logging.(lw_files) !! "logging.log" = Some "lines of an earlier run"
  /\ lw_files (snd (create_logger (os := flat_os) "utils" true true "logging.log"
                      fresh_logging))
       !! "logging.log" = Some ""
  /\ lw_loggers (snd (create_logger (os := flat_os) "utils" true true "logging.log"
                        fresh_logging))
       !! "utils" = Some (mkLogger DEBUG [0%nat; 1%nat]).
Proof.
  split; [exact fresh_logging_allocated|].
  split; [reflexivity|]. split; [reflexivity|].
  destruct (C8_create_logger (os := flat_os) "utils" "logging.log" fresh_logging
              fresh_logging_allocated eq_refl)
    as (_ & H2 & _ & _ & _ & _ & H7 & _).
  split; [exact H7 | exact H2].
Defined.

(** * Further properties of the code *)

(** ** The grid *)

(** X1: on every run of [plot_distributions] with [n_cols >= 1], also
    one that a later step interrupts, the Axes added for the column in
    position [k] (from 0) has index [k + 1], and that index lies inside
    the [n_rows] by [n_cols] grid the call computed: the code never asks
    for a cell outside its grid.  The grid has more cells than the
    dataset has columns, so at least one cell stays without Axes. *)
Theorem plot_distributions_grid_has_room {L : Library} (data : DataFrame)
    (figs : list Figure) (shows : nat) (n_cols : Z) (show : bool) :
  1 <= n_cols ->
  exists res fg sh,
    call (plot_distributions n_cols show) data figs shows
    = (res, mkWorld data (figs ++ [fg]) sh)
    /\ (length (fig_axes fg) <= length data)%nat
    /\ Z.of_nat (length data) < grid_rows data n_cols * n_cols
    /\ forall (k : nat) (a : Axes),
         fig_axes fg !! k = Some a ->
         ax_index a = Z.of_nat k + 1
         /\ 1 <= ax_index a <= ax_nrows a * ax_ncols a.
Proof.
  intros Hn.
  destruct (plot_distributions_any_run data figs shows n_cols show Hn)
    as (res & fg & sh & E & _ & Hcut & _).
  exists res, fg, sh. split; [exact E|].
  destruct (cut_short_slots _ _ _ _
              (distribution_panels_slots (grid_rows data n_cols) n_cols data) Hcut)
    as [Hlen Hslots].
  rewrite enum_map_length in Hlen.
  pose proof (floor_plus_one (Z.of_nat (length data)) n_cols Hn) as Hf.
  split; [exact Hlen|]. split; [unfold grid_rows; lia|].
  intros k a Hk. destruct (Hslots k a Hk) as (H1 & H2 & H3).
  split; [exact H3|]. rewrite H1, H2, H3.
  pose proof (lookup_lt_Some _ _ _ Hk) as Hlt.
  pose proof (subplot_index_in_grid data n_cols k Hn ltac:(lia)). lia.
Qed.

Lemma plot_distributions_grid_has_room_witness :
  1 <= 3
  /\ exists res fg sh,
       call (plot_distributions (L := lenient) 3 false) example_frame [] 0
       = (res, mkWorld example_frame [fg] sh)
       /\ Z.of_nat (length example_frame) < grid_rows example_frame 3 * 3.
Proof.
  split; [lia|].
  destruct (plot_distributions_grid_has_room (L := lenient) example_frame [] 0 3
              false ltac:(lia))
    as (res & fg & sh & H1 & _ & H3 & _).
  exists res, fg, sh. split; [exact H1 | exact H3].
Defined.

(** X2: when the number of columns is a multiple of [n_cols], the
    [+ 1] in [n_rows] buys a row that stays empty: on every run of
    either plotter, every Axes has an index in the first [n_rows - 1]
    rows. *)
Theorem last_row_empty_when_columns_fill_rows {L : Library} (data : DataFrame)
    (figs : list Figure) (shows : nat) (var_target : string) (n_cols : Z)
    (show : bool) :
  1 <= n_cols ->
  Z.of_nat (length data) mod n_cols = 0 ->
  exists rd fd sd rr fr sr,
    call (plot_distributions n_cols show) data figs shows
    = (rd, mkWorld data (figs ++ [fd]) sd)
    /\ call (plot_vars_vs_target var_target n_cols show) data figs shows
       = (rr, mkWorld data (figs ++ [fr]) sr)
    /\ (grid_rows data n_cols - 1) * n_cols = Z.of_nat (length data)
    /\ forall a, a ∈ fig_axes fd \/ a ∈ fig_axes fr ->
         ax_nrows a = grid_rows data n_cols
         /\ ax_ncols a = n_cols
         /\ ax_index a <= (ax_nrows a - 1) * ax_ncols a.
Proof.
  intros Hn Hmod.
  destruct (plot_distributions_any_run data figs shows n_cols show Hn)
    as (rd & fd & sd & Ed & _ & Hcd & _).
  destruct (plot_vars_vs_target_any_run data figs shows var_target n_cols show Hn)
    as (rr & fr & sr & Er & _ & Hcr & _).
  exists rd, fd, sd, rr, fr, sr. split; [exact Ed|]. split; [exact Er|].
  assert (Hrows : (grid_rows data n_cols - 1) * n_cols = Z.of_nat (length data)).
  { unfold grid_rows.
    pose proof (Z.div_mod (Z.of_nat (length data)) n_cols ltac:(lia)). lia. }
  split; [exact Hrows|].
  destruct (cut_short_slots _ _ _ _
              (distribution_panels_slots (grid_rows data n_cols) n_cols data) Hcd)
    as [Hlend Hsd].
  destruct (cut_short_slots _ _ _ _
              (relation_panels_slots data var_target (grid_rows data n_cols)
                 n_cols (but_last data)) Hcr)
    as [Hlenr Hsr].
  rewrite enum_map_length in Hlend, Hlenr. rewrite but_last_length in Hlenr.
  intros a [Ha | Ha]; apply list_elem_of_lookup in Ha as (k & Hk);
    pose proof (lookup_lt_Some _ _ _ Hk) as Hlt.
  - destruct (Hsd k a Hk) as (H1 & H2 & H3). rewrite H1, H2, H3.
    repeat split; lia.
  - destruct (Hsr k a Hk) as (H1 & H2 & H3). rewrite H1, H2, H3.
    repeat split; lia.
Qed.

Lemma last_row_empty_when_columns_fill_rows_witness :
  1 <= 3
  /\ Z.of_nat (length example_frame) mod 3 = 0
  /\ grid_rows example_frame 3 = 2
  /\ exists rd fd sd,
       call (plot_distributions (L := lenient) 3 false) example_frame [] 0
       = (rd, mkWorld example_frame [fd] sd)
       /\ forall a, a ∈ fig_axes fd -> ax_index a <= (ax_nrows a - 1) * ax_ncols a.
Proof.
  split; [lia|]. split; [reflexivity|]. split; [reflexivity|].
  destruct (last_row_empty_when_columns_fill_rows (L := lenient) example_frame []
              0 "Target" 3 false ltac:(lia) eq_refl)
    as (rd & fd & sd & rr & fr & sr & H1 & _ & _ & H4).
  exists rd, fd, sd. split; [exact H1|].
  intros a Ha. apply (H4 a). left. exact Ha.
Defined.

(** ** What the panels hold *)





(** ** Labels that name several columns *)

Lemma for_enumerate_app {W A : Type} (body : Z -> A -> M W unit) (xs ys : list A)
    (i : Z) (w : W) :
  for_enumerate i (xs ++ ys) body w
  = bind (for_enumerate i xs body)
      (fun _ => for_enumerate (i + Z.of_nat (length xs)) ys body) w.
Proof.
  revert i w. induction xs as [|x xs IH]; intros i w.
  - cbn [app for_enumerate length]. unfold bind, ret.
    replace (i + Z.of_nat 0) with i by (cbn; lia). reflexivity.
  - cbn [app for_enumerate length]. unfold bind.
    destruct (body i x w) as [[[]|e] w1]; [|reflexivity].
    rewrite IH. unfold bind.
    replace (i + 1 + Z.of_nat (length xs))
      with (i + Z.of_nat (S (length xs))) by lia.
    reflexivity.
Qed.

Lemma classic_counts_in (data : DataFrame) (cs : list Column) :
  (forall x, x ∈ cs -> x ∈ data) ->
  (forall x, x ∈ cs -> label_count data (col_name x) = 1%nat)
  \/ exists c, c ∈ cs /\ (1 < label_count data (col_name c))%nat.
Proof.
  induction cs as [|x cs IH]; intros Hsub; [left; intros x Hx; inversion Hx|].
  destruct (IH ltac:(intros y Hy; apply Hsub; right; exact Hy))
    as [Hall | (c & Hc & Hamb)].
  - pose proof (label_count_member data x (Hsub x ltac:(left))) as Hge.
    destruct (decide (label_count data (col_name x) = 1%nat)) as [E | N].
    + left. intros y Hy. apply elem_of_cons in Hy as [-> | Hy]; [exact E|].
      apply Hall. exact Hy.
    + right. exists x. split; [left | lia].
  - right. exists c. split; [right; exact Hc | exact Hamb].
Qed.

Lemma classic_counts (data : DataFrame) :
  (forall x, x ∈ data -> label_count data (col_name x) = 1%nat)
  \/ exists c, c ∈ data /\ (1 < label_count data (col_name c))%nat.
Proof. apply classic_counts_in. auto. Qed.

Section RepeatedLabels.
Context {L : Library}.

Lemma plot_distributions_loop_stops (data : DataFrame) (figs : list Figure)
    (n : nat) (n_rows n_cols : Z) (p : list Column) (c : Column)
    (rest : list Column) (fg : Figure) :
  (forall x, x ∈ p -> x ∈ data /\ label_count data (col_name x) = 1%nat) ->
  c ∈ data -> (1 < label_count data (col_name c))%nat ->
  (forall (k : nat) (x : Column),
     p !! k = Some x -> distribution_turn_error n_rows n_cols (Z.of_nat k) x = None) ->
  subplot_error n_rows n_cols (Z.of_nat (length p) + 1) = None ->
  for_enumerate 0 (map col_name (p ++ c :: rest))
    (plot_distributions_body (length figs) n_rows n_cols)
    (mkWorld data (figs ++ [fg]) n)
  = (Raise (ambiguous_label_error (col_name c)),
     mkWorld data
       (figs ++ [mkFigure (fig_size fg)
                   (fig_axes fg
                    ++ enum_map (distribution_panel n_rows n_cols) 0 p
                    ++ [new_axes n_rows n_cols (Z.of_nat (length p) + 1)])
                   (fig_tight fg)])
       n).
Proof.
  intros Hp Hc Hamb Hacc Hsub.
  rewrite map_app, for_enumerate_app. unfold bind at 1.
  rewrite plot_distributions_loop_accepted
    by (try exact Hp; intros k x Hk; rewrite Z.add_0_l; apply Hacc; exact Hk).
  rewrite length_map, Z.add_0_l. cbn [map for_enumerate]. unfold bind at 1.
  rewrite plot_distributions_body_run by exact Hc.
  cbn [fig_size fig_axes fig_tight]. rewrite Hsub.
  replace (Nat.eqb (label_count data (col_name c)) 1) with false
    by (symmetry; apply Nat.eqb_neq; lia).
  unfold add_axes. cbn [fig_size fig_axes fig_tight].
  rewrite <- app_assoc. reflexivity.
Qed.

Lemma plot_vars_vs_target_loop_stops (data : DataFrame) (figs : list Figure)
    (n : nat) (var_target : string) (n_rows n_cols : Z) (p : list Column)
    (c : Column) (rest : list Column) (fg : Figure) :
  (forall x, x ∈ p -> x ∈ data /\ label_count data (col_name x) = 1%nat) ->
  c ∈ data -> (1 < label_count data (col_name c))%nat ->
  (forall (k : nat) (x : Column),
     p !! k = Some x ->
     relation_turn_error data var_target n_rows n_cols (Z.of_nat k) x = None) ->
  subplot_error n_rows n_cols (Z.of_nat (length p) + 1) = None ->
  for_enumerate 0 (map col_name (p ++ c :: rest))
    (plot_vars_vs_target_body (length figs) var_target n_rows n_cols)
    (mkWorld data (figs ++ [fg]) n)
  = (Raise (ambiguous_label_error (col_name c)),
     mkWorld data
       (figs ++ [mkFigure (fig_size fg)
                   (fig_axes fg
                    ++ enum_map (relation_panel data var_target n_rows n_cols) 0 p
                    ++ [new_axes n_rows n_cols (Z.of_nat (length p) + 1)])
                   (fig_tight fg)])
       n).
Proof.
  intros Hp Hc Hamb Hacc Hsub.
  rewrite map_app, for_enumerate_app. unfold bind at 1.
  rewrite plot_vars_vs_target_loop_accepted
    by (try exact Hp; intros k x Hk; rewrite Z.add_0_l; apply Hacc; exact Hk).
  rewrite length_map, Z.add_0_l. cbn [map for_enumerate]. unfold bind at 1.
  rewrite plot_vars_vs_target_body_run by exact Hc.
  cbn [fig_size fig_axes fig_tight]. rewrite Hsub.
  replace (Nat.eqb (label_count data (col_name c)) 1) with false
    by (symmetry; apply Nat.eqb_neq; lia).
  unfold add_axes. cbn [fig_size fig_axes fig_tight].
  rewrite <- app_assoc. reflexivity.
Qed.

(** A loop that meets a label naming several columns does not
    complete, whatever the library does on the way. *)
Lemma plot_distributions_loop_raises (data : DataFrame) (n_rows n_cols : Z)
    (fig : FigRef) :
  forall (cs : list Column) (i : Z) (w : World),
    w_frame w = data ->
    (forall x, x ∈ cs -> x ∈ data) ->
    (exists c, c ∈ cs /\ (1 < label_count data (col_name c))%nat) ->
    exists e,
      fst (for_enumerate i (map col_name cs)
             (plot_distributions_body fig n_rows n_cols) w) = Raise e.
Proof.
  intros cs. induction cs as [|x cs IH]; intros i w Hw Hsub (c & Hc & Hamb);
    [inversion Hc|].
  cbn [map for_enumerate]. unfold bind at 1.
  pose proof (proj1 (drawing_only_distributions_body fig n_rows n_cols i
                       (col_name x)) w) as Hkeep.
  destruct (plot_distributions_body fig n_rows n_cols i (col_name x) w)
    as [[[]|e] w1] eqn:E; [|exists e; reflexivity].
  cbn [snd] in Hkeep.
  apply elem_of_cons in Hc as [-> | Hc].
  - exfalso. clear IH. revert E. unfold plot_distributions_body.
    unfold bind at 1. unfold add_subplot.
    destruct (subplot_error n_rows n_cols (i + 1)); [discriminate|].
    match goal with
    | |- context [bind (getitem ?v) ?k ?w0] =>
        pose proof (dtype_of_several data v (w_figures w0) (w_shows w0) Hamb) as Hd;
        replace (mkWorld data (w_figures w0) (w_shows w0)) with w0 in Hd
          by (cbn [w_frame w_figures w_shows]; rewrite <- Hw; reflexivity)
    end.
    rewrite (bind_bind_raise _ _ _ _ _ _ Hd). discriminate.
  - apply IH; [rewrite Hkeep; exact Hw | intros y Hy; apply Hsub; right; exact Hy|].
    exists c. split; assumption.
Qed.

Lemma plot_vars_vs_target_loop_raises (data : DataFrame) (var_target : string)
    (n_rows n_cols : Z) (fig : FigRef) :
  forall (cs : list Column) (i : Z) (w : World),
    w_frame w = data ->
    (forall x, x ∈ cs -> x ∈ data) ->
    (exists c, c ∈ cs /\ (1 < label_count data (col_name c))%nat) ->
    exists e,
      fst (for_enumerate i (map col_name cs)
             (plot_vars_vs_target_body fig var_target n_rows n_cols) w) = Raise e.
Proof.
  intros cs. induction cs as [|x cs IH]; intros i w Hw Hsub (c & Hc & Hamb);
    [inversion Hc|].
  cbn [map for_enumerate]. unfold bind at 1.
  pose proof (proj1 (drawing_only_vars_vs_target_body fig var_target n_rows n_cols i
                       (col_name x)) w) as Hkeep.
  destruct (plot_vars_vs_target_body fig var_target n_rows n_cols i (col_name x) w)
    as [[[]|e] w1] eqn:E; [|exists e; reflexivity].
  cbn [snd] in Hkeep.
  apply elem_of_cons in Hc as [-> | Hc].
  - exfalso. clear IH. revert E. unfold plot_vars_vs_target_body.
    unfold bind at 1. unfold add_subplot.
    destruct (subplot_error n_rows n_cols (i + 1)); [discriminate|].
    match goal with
    | |- context [bind (getitem ?v) ?k ?w0] =>
        pose proof (dtype_of_several data v (w_figures w0) (w_shows w0) Hamb) as Hd;
        replace (mkWorld data (w_figures w0) (w_shows w0)) with w0 in Hd
          by (cbn [w_frame w_figures w_shows]; rewrite <- Hw; reflexivity)
    end.
    rewrite (bind_bind_raise _ _ _ _ _ _ Hd). discriminate.
  - apply IH; [rewrite Hkeep; exact Hw | intros y Hy; apply Hsub; right; exact Hy|].
    exists c. split; assumption.
Qed.

End RepeatedLabels.

(** X5: a label naming several columns stops [plot_distributions] at
    the first column that carries one.  If the libraries accept the
    calls made for the columns before it, and the [add_subplot] made for
    it, the exception is AttributeError ([data[var]] is then a
    DataFrame, which has no dtype), or ValueError when that label is
    'dtype'.  The figure stays in pyplot's table with the panels of the
    columns before and an empty Axes for that column, without
    [tight_layout]; [plt.show()] has not been called even with
    [show = True], and figures opened earlier are as they were. *)
Theorem plot_distributions_repeated_label {L : Library} (p : list Column)
    (c : Column) (rest : list Column) (figs : list Figure) (shows : nat)
    (n_cols : Z) (show : bool) :
  let data := p ++ c :: rest in
  1 <= n_cols ->
  (forall x, x ∈ p -> label_count data (col_name x) = 1%nat) ->
  (1 < label_count data (col_name c))%nat ->
  (forall (k : nat) (x : Column),
     p !! k = Some x ->
     distribution_turn_error (grid_rows data n_cols) n_cols (Z.of_nat k) x = None) ->
  subplot_error (grid_rows data n_cols) n_cols (Z.of_nat (length p) + 1) = None ->
  call (plot_distributions n_cols show) data figs shows
  = (Raise (ambiguous_label_error (col_name c)),
     mkWorld data
       (figs ++ [mkFigure (20, 5 * grid_rows data n_cols)
                   (enum_map
                      (distribution_panel (grid_rows data n_cols) n_cols) 0 p
                    ++ [new_axes (grid_rows data n_cols) n_cols
                          (Z.of_nat (length p) + 1)])
                   false])
       shows).
Proof.
  intros data Hn Hp Hc Hacc Hsub.
  unfold call, plot_distributions.
  unfold bind at 1. unfold columns at 1. cbn [w_frame].
  unfold bind at 1. rewrite floordiv_run by lia. rewrite length_map.
  change (Z.of_nat (length data) / n_cols + 1) with (grid_rows data n_cols).
  cbv zeta.
  unfold bind at 1. rewrite plt_figure_run by exact Hn.
  unfold bind at 1. unfold columns at 1. cbn [w_frame].
  unfold bind at 1.
  assert (Hin : forall x, x ∈ p -> x ∈ data /\ label_count data (col_name x) = 1%nat).
  { intros x Hx. split; [|apply Hp; exact Hx].
    unfold data. apply elem_of_app. left. exact Hx. }
  assert (Hcin : c ∈ data).
  { unfold data. apply elem_of_app. right. left. }
  pose proof (plot_distributions_loop_stops data figs shows
                (grid_rows data n_cols) n_cols p c rest
                (mkFigure (20, 5 * grid_rows data n_cols) [] false)
                Hin Hcin Hc Hacc Hsub) as E.
  change (p ++ c :: rest) with data in E.
  rewrite E. reflexivity.
Qed.

Lemma plot_distributions_repeated_label_witness :
  1 <= 5
  /\ fst (call (plot_distributions (L := lenient) 5 true) twin_frame [] 0)
     = Raise AttributeError
  /\ w_shows (snd (call (plot_distributions (L := lenient) 5 true) twin_frame [] 0))
     = 0%nat.
Proof.
  split; [lia|].
  pose proof (plot_distributions_repeated_label (L := lenient)
                [mkColumn "age" "int64" [VInt 31; VInt 47]]
                (mkColumn "city" "object" [VStr "Lugo"; VStr "Vigo"])
                [ mkColumn "city" "category" [VStr "north"; VStr "south"];
                  mkColumn "Target" "int64" [VInt 0; VInt 1] ]
                [] 0 5 true ltac:(lia)) as E.
  cbv zeta in E. cbn [app] in E. unfold twin_frame.
  rewrite E.
  - split; reflexivity.
  - intros x Hx. apply list_elem_of_singleton in Hx. subst x. reflexivity.
  - apply Nat.ltb_lt. vm_compute. reflexivity.
  - intros k x Hk. reflexivity.
  - reflexivity.
Defined.

(** X6: the same for [plot_vars_vs_target], which visits
    [data.columns[:-1]].  One label on two columns stops it even when
    one of the two is the last column, which the loop does not visit:
    the other one is visited, and [data[var]] selects both. *)
Theorem plot_vars_vs_target_repeated_label {L : Library} (data : DataFrame)
    (p : list Column) (c : Column) (rest : list Column) (figs : list Figure)
    (shows : nat) (var_target : string) (n_cols : Z) (show : bool) :
  but_last data = p ++ c :: rest ->
  1 <= n_cols ->
  (forall x, x ∈ p -> label_count data (col_name x) = 1%nat) ->
  (1 < label_count data (col_name c))%nat ->
  (forall (k : nat) (x : Column),
     p !! k = Some x ->
     relation_turn_error data var_target (grid_rows data n_cols) n_cols
       (Z.of_nat k) x = None) ->
  subplot_error (grid_rows data n_cols) n_cols (Z.of_nat (length p) + 1) = None ->
  call (plot_vars_vs_target var_target n_cols show) data figs shows
  = (Raise (ambiguous_label_error (col_name c)),
     mkWorld data
       (figs ++ [mkFigure (20, 5 * grid_rows data n_cols)
                   (enum_map
                      (relation_panel data var_target
                         (grid_rows data n_cols) n_cols) 0 p
                    ++ [new_axes (grid_rows data n_cols) n_cols
                          (Z.of_nat (length p) + 1)])
                   false])
       shows).
Proof.
  intros Hsplit Hn Hp Hc Hacc Hsub.
  unfold call, plot_vars_vs_target.
  unfold bind at 1. unfold columns at 1. cbn [w_frame].
  unfold bind at 1. rewrite floordiv_run by lia. rewrite length_map.
  change (Z.of_nat (length data) / n_cols + 1) with (grid_rows data n_cols).
  cbv zeta.
  unfold bind at 1. rewrite plt_figure_run by exact Hn.
  unfold bind at 1. unfold columns at 1. cbn [w_frame].
  rewrite but_last_map, Hsplit.
  unfold bind at 1.
  rewrite plot_vars_vs_target_loop_stops; try assumption.
  - reflexivity.
  - intros x Hx. split; [|apply Hp; exact Hx].
    apply elem_of_but_last. rewrite Hsplit. apply elem_of_app. left. exact Hx.
  - apply elem_of_but_last. rewrite Hsplit. apply elem_of_app. right. left.
Qed.

Lemma plot_vars_vs_target_repeated_label_witness :
  but_last twin_frame
  = [mkColumn "age" "int64" [VInt 31; VInt 47]]
    ++ mkColumn "city" "object" [VStr "Lugo"; VStr "Vigo"]
       :: [mkColumn "city" "category" [VStr "north"; VStr "south"]]
  /\ 1 <= 5
  /\ fst (call (plot_vars_vs_target (L := lenient) "Target" 5 true) twin_frame [] 0)
     = Raise AttributeError.
Proof.
  split; [reflexivity|]. split; [lia|].
  rewrite (plot_vars_vs_target_repeated_label (L := lenient) twin_frame
             [mkColumn "age" "int64" [VInt 31; VInt 47]]
             (mkColumn "city" "object" [VStr "Lugo"; VStr "Vigo"])
             [mkColumn "city" "category" [VStr "north"; VStr "south"]]
             [] 0 "Target" 5 true eq_refl ltac:(lia)).
  - reflexivity.
  - intros x Hx. apply list_elem_of_singleton in Hx. subst x. reflexivity.
  - apply Nat.ltb_lt. vm_compute. reflexivity.
  - intros k x Hk. unfold relation_turn_error.
    cbn [lenient subplot_error seaborn_error].
    destruct (relation_artist _ _ _); reflexivity.
  - reflexivity.
Defined.

(** X7: with a label that names several columns neither plotter ever
    returns, whatever [n_cols] is and whatever the libraries do: every
    run ends in an exception. *)
Theorem repeated_label_never_returns {L : Library} (data : DataFrame)
    (figs : list Figure) (shows : nat) (var_target : string) (n_cols : Z)
    (show : bool) :
  ~ unique_labels data ->
  (exists e, fst (call (plot_distributions n_cols show) data figs shows) = Raise e)
  /\ (exists e,
        fst (call (plot_vars_vs_target var_target n_cols show) data figs shows)
        = Raise e).
Proof.
  intros Hnu.
  assert (Hd : exists c, c ∈ data /\ (1 < label_count data (col_name c))%nat).
  { destruct (classic_counts data) as [Hall | H]; [|exact H].
    exfalso. apply Hnu. apply unique_of_label_counts. exact Hall. }
  assert (Hr : exists c, c ∈ but_last data
                         /\ (1 < label_count data (col_name c))%nat).
  { destruct (classic_counts_in data (but_last data)
                ltac:(auto using elem_of_but_last)) as [Hall | H]; [|exact H].
    exfalso. apply Hnu. apply unique_of_label_counts.
    apply label_counts_from_but_last. exact Hall. }
  split.
  - unfold call, plot_distributions.
    unfold bind at 1. unfold columns at 1. cbn [w_frame].
    unfold bind at 1. unfold floordiv.
    destruct (Z.eqb n_cols 0); [exists ZeroDivisionError; reflexivity|].
    unfold ret at 1. cbv zeta.
    unfold bind at 1. unfold plt_figure.
    destruct (figure_outcome _) as [e|]; [exists e; reflexivity|].
    cbn [w_frame w_figures w_shows].
    unfold bind at 1. unfold columns at 1. cbn [w_frame].
    unfold bind at 1.
    match goal with
    | |- context [for_enumerate 0 _ (plot_distributions_body ?fig ?r ?n) ?w] =>
        destruct (plot_distributions_loop_raises data r n fig data 0 w eq_refl
                    ltac:(auto) Hd) as (e & He);
        destruct (for_enumerate 0 _ (plot_distributions_body fig r n) w)
          as [[[]|e'] w1]; [discriminate He|]
    end.
    exists e'. reflexivity.
  - unfold call, plot_vars_vs_target.
    unfold bind at 1. unfold columns at 1. cbn [w_frame].
    unfold bind at 1. unfold floordiv.
    destruct (Z.eqb n_cols 0); [exists ZeroDivisionError; reflexivity|].
    unfold ret at 1. cbv zeta.
    unfold bind at 1. unfold plt_figure.
    destruct (figure_outcome _) as [e|]; [exists e; reflexivity|].
    cbn [w_frame w_figures w_shows].
    unfold bind at 1. unfold columns at 1. cbn [w_frame].
    rewrite but_last_map.
    unfold bind at 1.
    match goal with
    | |- context [for_enumerate 0 _ (plot_vars_vs_target_body ?fig ?t ?r ?n) ?w] =>
        destruct (plot_vars_vs_target_loop_raises data t r n fig (but_last data)
                    0 w eq_refl ltac:(auto using elem_of_but_last) Hr)
          as (e & He);
        destruct (for_enumerate 0 _ (plot_vars_vs_target_body fig t r n) w)
          as [[[]|e'] w1]; [discriminate He|]
    end.
    exists e'. reflexivity.
Qed.

Lemma repeated_label_never_returns_witness :
  ~ unique_labels twin_frame
  /\ exists e,
       fst (call (plot_distributions (L := lenient) (-3) false) twin_frame [] 0)
       = Raise e.
Proof.
  split; [exact twin_frame_repeats|].
  exact (proj1 (repeated_label_never_returns (L := lenient) twin_frame [] 0
                  "Target" (-3) false twin_frame_repeats)).
Defined.

(** X8: a call that raises has not called [plt.show()], whatever
    [show] was and whatever raised, the code or a library: the display
    comes after everything that can fail. *)
Theorem raising_call_never_shows {L : Library} (data : DataFrame)
    (figs : list Figure) (shows : nat) (var_target : string) (n_cols : Z)
    (show : bool) (e : Exn) :
  (fst (call (plot_distributions n_cols show) data figs shows) = Raise e ->
   w_shows (snd (call (plot_distributions n_cols show) data figs shows)) = shows)
  /\ (fst (call (plot_vars_vs_target var_target n_cols show) data figs shows)
      = Raise e ->
      w_shows (snd (call (plot_vars_vs_target var_target n_cols show)
                      data figs shows)) = shows).
Proof.
  split; intros H.
  - destruct show; [|apply (plot_distributions_quiet n_cols)].
    unfold call in *. rewrite plot_distributions_show in *.
    pose proof (plot_distributions_quiet n_cols (mkWorld data figs shows)) as Q.
    destruct (plot_distributions n_cols false (mkWorld data figs shows))
      as [[fig|e'] w']; cbn in *; [discriminate H | exact Q].
  - destruct show; [|apply (plot_vars_vs_target_quiet var_target n_cols)].
    unfold call in *. rewrite plot_vars_vs_target_show in *.
    pose proof (plot_vars_vs_target_quiet var_target n_cols
                  (mkWorld data figs shows)) as Q.
    destruct (plot_vars_vs_target var_target n_cols false (mkWorld data figs shows))
      as [[fig|e'] w']; cbn in *; [discriminate H | exact Q].
Qed.

Lemma raising_call_never_shows_witness :
  fst (call (plot_vars_vs_target (L := target_checking) "Missing" 5 true)
         example_frame [] 7) = Raise ValueError
  /\ w_shows (snd (call (plot_vars_vs_target (L := target_checking) "Missing" 5 true)
                     example_frame [] 7)) = 7%nat.
Proof.
  split; [vm_compute; reflexivity|].
  apply (proj2 (raising_call_never_shows (L := target_checking) example_frame [] 7
                  "Missing" 5 true ValueError)).
  vm_compute. reflexivity.
Defined.

(** ** Datasets without features, and calls in a row *)

Lemma nothing_to_relate {L : Library} (data : DataFrame) (var_target : string)
    (n_cols : Z) :
  1 <= n_cols -> (length data <= 1)%nat ->
  unique_labels data /\ relations_accepted data var_target n_cols
  /\ but_last data = [].
Proof.
  intros Hn Hlen.
  assert (Hb : but_last data = []).
  { destruct data as [|c [|c' data]]; cbn in Hlen; try lia; reflexivity. }
  split; [|split; [|exact Hb]].
  - unfold unique_labels. destruct data as [|c [|c' data]]; cbn in Hlen; try lia.
    + apply NoDup_nil. exact I.
    + cbn [map]. apply NoDup_singleton.
  - split.
    + intros k c Hk. rewrite Hb in Hk. discriminate Hk.
    + rewrite Hb. unfold layout_outcome. cbn [enum_map fig_axes fig_size].
      pose proof (grid_rows_positive data n_cols Hn) as Hpos.
      assert (Hle : grid_rows data n_cols <= 2).
      { unfold grid_rows.
        assert (Z.of_nat (length data) / n_cols <= 1); [|lia].
        apply Z.div_le_upper_bound; lia. }
      replace (small_size (20, 5 * grid_rows data n_cols)) with true; [reflexivity|].
      symmetry. unfold small_size. cbn [fst snd].
      rewrite !andb_true_iff, !Z.ltb_lt, !Z.leb_le. lia.
Qed.

(** X9: a dataset with no column besides the last gives
    [plot_vars_vs_target] nothing to draw: with no columns or a single
    one it returns a figure without Axes. *)
Theorem plot_vars_vs_target_without_features {L : Library} (data : DataFrame)
    (figs : list Figure) (shows : nat) (var_target : string) (n_cols : Z)
    (show : bool) :
  1 <= n_cols -> (length data <= 1)%nat ->
  call (plot_vars_vs_target var_target n_cols show) data figs shows
  = (Ok (length figs),
     mkWorld data
       (figs ++ [mkFigure (20, 5 * grid_rows data n_cols) [] true])
       (if show then S shows else shows)).
Proof.
  intros Hn Hlen.
  destruct (nothing_to_relate data var_target n_cols Hn Hlen) as (Hu & Hacc & Hb).
  rewrite plot_vars_vs_target_run by assumption.
  rewrite Hb. reflexivity.
Qed.

Lemma plot_vars_vs_target_without_features_witness :
  1 <= 5 /\ (length [mkColumn "Target" "int64" [VInt 0; VInt 1]] <= 1)%nat
  /\ call (plot_vars_vs_target (L := lenient) "Target" 5 false)
       [mkColumn "Target" "int64" [VInt 0; VInt 1]] [] 0
     = (Ok 0%nat,
        mkWorld [mkColumn "Target" "int64" [VInt 0; VInt 1]]
          [mkFigure (20, 5) [] true] 0).
Proof.
  split; [lia|]. split; [cbn; lia|].
  exact (plot_vars_vs_target_without_features (L := lenient)
           [mkColumn "Target" "int64" [VInt 0; VInt 1]] [] 0 "Target" 5 false
           ltac:(lia) ltac:(cbn; lia)).
Defined.

(** X10: calls compose through pyplot's table.  When the libraries
    accept the calls of both, a call of [plot_distributions] followed by
    a call of [plot_vars_vs_target] returns two consecutive handles; the
    second call leaves the figure of the first as it was, and each call
    with [show = True] adds one [plt.show()]. *)
Theorem two_calls_in_a_row {L : Library} (data : DataFrame) (figs : list Figure)
    (shows : nat) (var_target : string) (n1 n2 : Z) (show1 show2 : bool) :
  1 <= n1 -> 1 <= n2 -> unique_labels data ->
  distributions_accepted data n1 -> relations_accepted data var_target n2 ->
  let first := call (plot_distributions n1 show1) data figs shows in
  let second := plot_vars_vs_target var_target n2 show2 (snd first) in
  exists fg1 fg2,
    fst first = Ok (length figs)
    /\ w_figures (snd first) = figs ++ [fg1]
    /\ fst second = Ok (S (length figs))
    /\ w_figures (snd second) = figs ++ [fg1; fg2]
    /\ w_frame (snd second) = data
    /\ w_shows (snd second)
       = (shows + (if show1 then 1 else 0) + (if show2 then 1 else 0))%nat.
Proof.
  intros H1 H2 Hu Hd Hr first second. subst second first.
  rewrite plot_distributions_run by assumption. cbn [fst snd].
  match goal with
  | |- context [plot_vars_vs_target _ _ _ (mkWorld ?d ?f ?s)] =>
      change (plot_vars_vs_target var_target n2 show2 (mkWorld d f s))
        with (call (plot_vars_vs_target var_target n2 show2) d f s)
  end.
  rewrite plot_vars_vs_target_run by assumption.
  eexists _, _. cbn [fst snd w_figures w_frame w_shows].
  split; [reflexivity|]. split; [reflexivity|].
  split; [rewrite length_app; cbn [length]; f_equal; lia|].
  split; [rewrite <- app_assoc; reflexivity|].
  split; [reflexivity|].
  destruct show1, show2; lia.
Qed.

Lemma two_calls_in_a_row_witness :
  1 <= 5 /\ 1 <= 2 /\ unique_labels example_frame
  /\ fst (plot_vars_vs_target (L := lenient) "Target" 2 true
            (snd (call (plot_distributions (L := lenient) 5 true)
                    example_frame [] 0)))
     = Ok 1%nat.
Proof.
  split; [lia|]. split; [lia|]. split; [exact example_frame_unique|].
  destruct (two_calls_in_a_row (L := lenient) example_frame [] 0 "Target" 5 2
              true true ltac:(lia) ltac:(lia) example_frame_unique
              (lenient_accepts_distributions example_frame 5)
              (lenient_accepts_relations example_frame "Target" 2))
    as (fg1 & fg2 & _ & _ & H3 & _).
  exact H3.
Defined.

(** ** The two plotters side by side *)

Lemma panel_indices_agree (d : DataFrame) (var_target : string) (r n_cols : Z)
    (cs : list Column) (i : Z) :
  map ax_index (enum_map (distribution_panel r n_cols) i cs)
  = map ax_index (enum_map (relation_panel d var_target r n_cols) i cs).
Proof.
  revert i. induction cs as [|c cs IH]; intros i; [reflexivity|].
  cbn [enum_map map]. f_equal; [|apply IH].
  destruct (distribution_panel_slot r n_cols i c) as (_ & _ & ->).
  destruct (relation_panel_slot d var_target r n_cols i c) as (_ & _ & ->).
  reflexivity.
Qed.

(** X16: on the same dataset and with the same [n_cols], when the
    libraries accept the calls of both plotters, the figure of
    [plot_vars_vs_target] has the size and the grid of the figure of
    [plot_distributions], both computed from all the columns, and one
    Axes fewer: the last column takes part in the row count and not in
    the loop. *)
Theorem relation_figure_one_panel_short {L : Library} (data : DataFrame)
    (figs : list Figure) (shows : nat) (var_target : string) (n_cols : Z)
    (show : bool) :
  1 <= n_cols -> unique_labels data -> data <> [] ->
  distributions_accepted data n_cols ->
  relations_accepted data var_target n_cols ->
  exists fd fr,
    call (plot_distributions n_cols show) data figs shows
    = (Ok (length figs),
       mkWorld data (figs ++ [fd]) (if show then S shows else shows))
    /\ call (plot_vars_vs_target var_target n_cols show) data figs shows
       = (Ok (length figs),
          mkWorld data (figs ++ [fr]) (if show then S shows else shows))
    /\ fig_size fr = fig_size fd
    /\ length (fig_axes fd) = S (length (fig_axes fr))
    /\ map ax_index (fig_axes fd)
       = map ax_index (fig_axes fr) ++ [Z.of_nat (length data)]
    /\ (forall a, a ∈ fig_axes fd \/ a ∈ fig_axes fr ->
          ax_nrows a = grid_rows data n_cols /\ ax_ncols a = n_cols).
Proof.
  intros Hn Hu Hne Hd Hr. eexists _, _.
  split; [apply plot_distributions_run; assumption|].
  split; [apply plot_vars_vs_target_run; assumption|].
  clear Hd Hr.
  cbn [fig_size fig_axes]. split; [reflexivity|].
  destruct data as [|c0 data0] using rev_ind; [contradiction|]. clear IHdata0.
  rewrite but_last_snoc, !enum_map_length, length_app. cbn [length].
  split; [lia|].
  split.
  - generalize (grid_rows (data0 ++ [c0]) n_cols). intros r.
    rewrite enum_map_app, map_app. cbn [enum_map map]. f_equal.
    + apply panel_indices_agree.
    + destruct (distribution_panel_slot r n_cols (0 + Z.of_nat (length data0)) c0)
        as (_ & _ & ->).
      f_equal. lia.
  - intros a [Ha | Ha]; apply elem_of_enum_map in Ha as (k & c & _ & ->).
    + destruct (distribution_panel_slot (grid_rows (data0 ++ [c0]) n_cols) n_cols
                  (0 + Z.of_nat k) c) as (H1 & H2 & _). split; assumption.
    + destruct (relation_panel_slot (data0 ++ [c0]) var_target
                  (grid_rows (data0 ++ [c0]) n_cols) n_cols (0 + Z.of_nat k) c)
        as (H1 & H2 & _). split; assumption.
Qed.

Lemma relation_figure_one_panel_short_witness :
  1 <= 5 /\ unique_labels example_frame /\ example_frame <> []
  /\ exists fd fr,
       call (plot_distributions (L := lenient) 5 false) example_frame [] 0
       = (Ok 0%nat, mkWorld example_frame [fd] 0)
       /\ call (plot_vars_vs_target (L := lenient) "Target" 5 false)
            example_frame [] 0
          = (Ok 0%nat, mkWorld example_frame [fr] 0)
       /\ length (fig_axes fd) = S (length (fig_axes fr)).
Proof.
  split; [lia|]. split; [exact example_frame_unique|]. split; [discriminate|].
  destruct (relation_figure_one_panel_short (L := lenient) example_frame [] 0
              "Target" 5 false ltac:(lia) example_frame_unique
              ltac:(discriminate)
              (lenient_accepts_distributions example_frame 5)
              (lenient_accepts_relations example_frame "Target" 5))
    as (fd & fr & H1 & H2 & _ & H4 & _).
  exists fd, fr. split; [exact H1|]. split; [exact H2 | exact H4].
Defined.

(** ** [create_logger] with any flags, and what it leaves alone *)

(** X11: with both outputs off, [create_logger] still registers the
    logger under the module's name if there was none and sets its level
    to DEBUG, whatever the level was; it adds no handler, creates no
    handler object and touches no file. *)
Theorem create_logger_outputs_off {os : Os} (name file_name : string)
    (w : Logging) :
  create_logger name false false file_name w
  = (Ok name,
     mkLogging
       (<[name := mkLogger DEBUG (lg_handlers (logger_of w name))]> (lw_loggers w))
       (lw_handlers w) (lw_files w)).
Proof.
  unfold create_logger. unfold bind at 1. rewrite getLogger_run.
  unfold bind at 1. unfold logger_setLevel.
  cbn [lw_loggers lw_handlers lw_files]. rewrite alter_insert_eq.
  reflexivity.
Qed.

(** X12: for every combination of the flags, a call that can open its
    file (or asks for none) returns the logger and has added to it
    exactly the handlers that were asked for, after those it had,
    console before file: a StreamHandler of level DEBUG when [stream], a
    FileHandler of level INFO opened with mode 'w' when [file].  The
    file that [file_name] designates is emptied when [file], and no
    file is touched otherwise.  A call whose file cannot be opened
    raises what [open] raises, and leaves the job half done: the logger
    is registered at level DEBUG, the console handler is attached if
    [stream], there is no file handler and no file has changed. *)
Theorem create_logger_adds_what_is_asked {os : Os} (name : string)
    (stream file : bool) (file_name : string) (w : Logging) :
  handlers_allocated w ->
  let run := create_logger name stream file file_name w in
  let w' := snd run in
  let n := length (lw_handlers w) in
  let console :=
    mkHandler StreamHandler DEBUG (Some "%(asctime)s : %(levelname)s %(message)s") in
  let logfile :=
    mkHandler (FileHandler file_name "w") INFO
      (Some "%(asctime)s %(name)s %(lineno)d:%(levelname)s %(message)s") in
  let added := (if stream then [console] else []) ++ (if file then [logfile] else []) in
  ((file = true -> open_error file_name "w" = None) ->
   fst run = Ok name
   /\ lw_handlers w' = lw_handlers w ++ added
   /\ lw_loggers w' !! name
      = Some (mkLogger DEBUG
                (lg_handlers (logger_of w name) ++ seq n (length added)))
   /\ lw_files w'
      = (if file then <[file_of file_name := ""]> (lw_files w) else lw_files w))
  /\ (forall e : Exn,
        file = true -> open_error file_name "w" = Some e ->
        fst run = Raise e
        /\ lw_handlers w' = lw_handlers w ++ (if stream then [console] else [])
        /\ lw_loggers w' !! name
           = Some (mkLogger DEBUG
                     (lg_handlers (logger_of w name)
                      ++ (if stream then [n] else [])))
        /\ lw_files w' = lw_files w).
Proof.
  intros Hw run w' n console logfile added. subst w' run.
  rewrite create_logger_run by exact Hw.
  split.
  - intros Hopen.
    replace (if file then open_error file_name "w" else None) with (@None Exn)
      by (destruct file; [symmetry; apply Hopen|]; reflexivity).
    cbn [fst snd lw_handlers lw_loggers lw_files].
    split; [reflexivity|]. split; [reflexivity|].
    split; [|reflexivity].
    rewrite lookup_insert_eq. subst added n.
    destruct stream, file; reflexivity.
  - intros e -> He. rewrite He.
    cbn [fst snd lw_handlers lw_loggers lw_files].
    split; [reflexivity|]. split; [reflexivity|].
    split; [|reflexivity].
    rewrite lookup_insert_eq. reflexivity.
Qed.

Lemma create_logger_adds_what_is_asked_witness :
  handlers_allocated busy_logging
  /\ (fst (create_logger (os := cwd_os) "utils" true true "./logging.log"
             busy_logging) = Ok "utils"
      /\ lw_files (snd (create_logger (os := cwd_os) "utils" true true
                          "./logging.log" busy_logging))
           !! "logging.log" = Some "")
  /\ (fst (create_logger (os := no_nodir_os) "utils" true true "nodir/run.log"
             busy_logging) = Raise FileNotFoundError
      /\ lw_loggers (snd (create_logger (os := no_nodir_os) "utils" true true
                            "nodir/run.log" busy_logging))
           !! "utils" = Some (mkLogger DEBUG [0%nat; 2%nat])).
Proof.
  split; [exact busy_logging_allocated|]. split.
  - destruct (proj1 (create_logger_adds_what_is_asked (os := cwd_os) "utils"
                       true true "./logging.log" busy_logging
                       busy_logging_allocated) (fun _ => eq_refl))
      as (H1 & _ & _ & H4).
    split; [exact H1|]. rewrite H4. reflexivity.
  - destruct (proj2 (create_logger_adds_what_is_asked (os := no_nodir_os) "utils"
                       true true "nodir/run.log" busy_logging
                       busy_logging_allocated) FileNotFoundError eq_refl eq_refl)
      as (H1 & _ & H3 & _).
    split; [exact H1 | exact H3].
Defined.

(** X13: whether it returns or raises, one call leaves alone the level
    and the handler list of every logger registered under another name,
    every file but the one [file_name] designates, and the handler
    objects that already exist: handlers attached earlier keep their
    levels and formats.  (This is about what is set on the other
    loggers themselves; what a logger inherits from one above it in
    the dotted hierarchy is not part of the store modelled here.) *)
Theorem create_logger_footprint {os : Os} (name : string) (stream file : bool)
    (file_name : string) (w : Logging) :
  handlers_allocated w ->
  let w' := snd (create_logger name stream file file_name w) in
  (forall other : string, other <> name ->
     lw_loggers w' !! other = lw_loggers w !! other)
  /\ (forall f : string, f <> file_of file_name ->
        lw_files w' !! f = lw_files w !! f)
  /\ (forall (h : nat) (x : Handler),
        lw_handlers w !! h = Some x -> lw_handlers w' !! h = Some x).
Proof.
  intros Hw w'. subst w'.
  rewrite create_logger_run by exact Hw.
  destruct (if file then open_error file_name "w" else None) as [e|];
    cbn [snd lw_handlers lw_loggers lw_files].
  - split; [|split].
    + intros other Hne. apply lookup_insert_ne. congruence.
    + reflexivity.
    + intros h x Hx. apply lookup_app_l_Some. exact Hx.
  - split; [|split].
    + intros other Hne. apply lookup_insert_ne. congruence.
    + intros f Hne. destruct file; [|reflexivity].
      apply lookup_insert_ne. congruence.
    + intros h x Hx. apply lookup_app_l_Some. exact Hx.
Qed.

Lemma create_logger_footprint_witness :
  handlers_allocated busy_logging
  /\ lw_loggers (snd (create_logger (os := cwd_os) "utils" true true
                        "./logging.log" busy_logging))
       !! "server" = Some (mkLogger ERROR [0%nat; 1%nat])
  /\ lw_files (snd (create_logger (os := cwd_os) "utils" true true
                      "./logging.log" busy_logging))
       !! "server.log" = Some "boot".
Proof.
  split; [exact busy_logging_allocated|].
  destruct (create_logger_footprint (os := cwd_os) "utils" true true
              "./logging.log" busy_logging busy_logging_allocated)
    as (H1 & H2 & _).
  split.
  - rewrite (H1 "server") by discriminate. reflexivity.
  - rewrite (H2 "server.log") by discriminate. reflexivity.
Defined.

(** ** Repeated calls *)



